(** * Gemini audio and text processor (app.py): model and properties

    A shallow embedding of [src/app.py].  The four functions of the program
    ([download_audio_from_url], [upload_audio_to_gemini],
    [generate_transcript_from_audio], [process_text_with_gemini]) and the
    two button handlers of [main] are written as computations over an
    explicit world: the local file system, the trace of what the program
    showed to the user and sent over the network, and an environment that
    fixes the outcome of every external interaction of one run.

    Python [str] values are [string]s whose characters are code points
    below 256; JSON documents are values of [json]. *)

From Stdlib Require Import ZArith Ascii String List Bool Lia.
From Stdlib.Strings Require Import Byte.
From stdpp Require Import base option gmap strings list fin_maps.

Local Open Scope Z_scope.
#[local] Set Warnings "-register-all".

(** ** Python strings *)

Module PyStr.

Definition ord (c : ascii) : Z := Z.of_nat (nat_of_ascii c).
Definition chr (z : Z) : ascii := ascii_of_nat (Z.to_nat z).

(** [str.lower] on one code point below 256: the ASCII capitals and the
    Latin-1 capitals (all of 192..222 but the multiplication sign 215)
    move up by 32, everything else stays. *)
Definition lower_char (c : ascii) : ascii :=
  let n := ord c in
  if ((65 <=? n) && (n <=? 90))
     || ((192 <=? n) && (n <=? 222) && negb (n =? 215))
  then chr (n + 32) else c.

Fixpoint lower (s : string) : string :=
  match s with
  | EmptyString => EmptyString
  | String c s' => String (lower_char c) (lower s')
  end.

(** [str.isspace] on one code point below 256. *)
Definition isspace (c : ascii) : bool :=
  let n := ord c in
  ((9 <=? n) && (n <=? 13)) || ((28 <=? n) && (n <=? 32))
  || (n =? 133) || (n =? 160).

Fixpoint lstrip (s : string) : string :=
  match s with
  | EmptyString => EmptyString
  | String c s' => if isspace c then lstrip s' else s
  end.

Fixpoint rstrip (s : string) : string :=
  match s with
  | EmptyString => EmptyString
  | String c s' =>
      match rstrip s' with
      | EmptyString => if isspace c then EmptyString else String c EmptyString
      | r => String c r
      end
  end.

(** [s.strip()] *)
Definition strip (s : string) : string := rstrip (lstrip s).

(** truth value of a [str]: false exactly for the empty string *)
Definition truthy (s : string) : bool :=
  match s with EmptyString => false | _ => true end.

Fixpoint all_space (s : string) : bool :=
  match s with
  | EmptyString => true
  | String c s' => isspace c && all_space s'
  end.

(** [p.rfind(c)] for a one-character needle: the highest index holding
    [c], or -1. *)
Fixpoint rfind_from (c : ascii) (s : string) (i acc : Z) : Z :=
  match s with
  | EmptyString => acc
  | String a s' => rfind_from c s' (i + 1) (if Ascii.eqb a c then i else acc)
  end.

Definition rfind (c : ascii) (s : string) : Z := rfind_from c s 0 (-1).

(** [p[i:]] and [p[:i]] for [0 <= i]. *)
Definition slice_from (p : string) (i : Z) : string :=
  substring (Z.to_nat i) (String.length p - Z.to_nat i) p.
Definition slice_to (p : string) (i : Z) : string :=
  substring 0 (Z.to_nat i) p.

(** [s.split(c)] for a one-character separator: never empty. *)
Fixpoint split (c : ascii) (s : string) : list string :=
  match s with
  | EmptyString => [EmptyString]
  | String a s' =>
      if Ascii.eqb a c then EmptyString :: split c s'
      else match split c s' with
           | [] => [String a EmptyString]
           | w :: ws => String a w :: ws
           end
  end.

End PyStr.

(** ** [os.path.splitext] (posixpath) *)

Module OsPath.
Import PyStr.

(** The [while] loop of [genericpath._splitext]: is there a character
    other than a dot at an index in [filenameIndex, dotIndex)?  The fuel
    is the number of iterations still possible. *)
Fixpoint has_non_dot (p : string) (filenameIndex : Z) (fuel : nat) : bool :=
  match fuel with
  | O => false
  | S fuel' =>
      match String.get (Z.to_nat filenameIndex) p with
      | Some c =>
          if Ascii.eqb c "."%char
          then has_non_dot p (filenameIndex + 1) fuel'
          else true
      | None => true
      end
  end.

Definition splitext (p : string) : string * string :=
  let sepIndex := rfind "/"%char p in
  let dotIndex := rfind "."%char p in
  if (sepIndex <? dotIndex)
     && has_non_dot p (sepIndex + 1) (Z.to_nat (dotIndex - (sepIndex + 1)))
  then (slice_to p dotIndex, slice_from p dotIndex)
  else (p, EmptyString).

End OsPath.

(** ** The mime type of an audio path ([upload_audio_to_gemini], first lines) *)

Definition file_extension (audio_path : string) : string :=
  PyStr.lower (snd (OsPath.splitext audio_path)).

Definition mime_type_map : gmap string string :=
  <[".flac"%string := "audio/flac"%string]>
  (<[".ogg"%string := "audio/ogg"%string]>
  (<[".m4a"%string := "audio/mp4"%string]>
  (<[".mp3"%string := "audio/mpeg"%string]>
  (<[".wav"%string := "audio/wav"%string]> ∅)))).

(** [mime_type_map.get(file_extension, 'audio/wav')] *)
Definition mime_type_for (audio_path : string) : string :=
  default "audio/wav"%string (mime_type_map !! file_extension audio_path).

(** ** Python values that come out of [json.loads] *)

(** [JNull] is Python's [None].  An object keeps its members in insertion
    order; a number is an integer (a float behaves like an integer in every
    operation the program applies to it: no [get], not iterable, false
    exactly when zero). *)
Inductive json : Type :=
| JNull
| JBool (b : bool)
| JNum (z : Z)
| JStr (s : string)
| JArr (items : list json)
| JObj (members : list (string * json)).

(** ** Exceptions and results *)

Record exn : Type := Exn { exn_class : string; exn_msg : string }.

(** [str(e)] *)
Definition str_exn (e : exn) : string := exn_msg e.

Inductive result (A : Type) : Type :=
| Ok (a : A)
| Raise (e : exn).
Arguments Ok {A} a.
Arguments Raise {A} e.

Definition rbind {A B} (r : result A) (k : A -> result B) : result B :=
  match r with Ok a => k a | Raise e => Raise e end.

Module PyVal.

Definition type_name (j : json) : string :=
  match j with
  | JNull => "NoneType"
  | JBool _ => "bool"
  | JNum _ => "int"
  | JStr _ => "str"
  | JArr _ => "list"
  | JObj _ => "dict"
  end.

(** truth value of a Python object *)
Definition truthy (j : json) : bool :=
  match j with
  | JNull => false
  | JBool b => b
  | JNum z => negb (z =? 0)
  | JStr s => PyStr.truthy s
  | JArr l => match l with [] => false | _ => true end
  | JObj l => match l with [] => false | _ => true end
  end.

(** lookup of a key among the members of a dict *)
Fixpoint assoc (key : string) (members : list (string * json)) : option json :=
  match members with
  | [] => None
  | (k, v) :: rest => if String.eqb k key then Some v else assoc key rest
  end.

(** [obj.get(key, dflt)]: only a dict has the method. *)
Definition get (obj : json) (key : string) (dflt : json) : result json :=
  match obj with
  | JObj members => Ok (default dflt (assoc key members))
  | _ => Raise (Exn "AttributeError"
                 ("'" +:+ type_name obj +:+ "' object has no attribute 'get'"))
  end.

Fixpoint chars (s : string) : list json :=
  match s with
  | EmptyString => []
  | String c s' => JStr (String c EmptyString) :: chars s'
  end.

(** [for x in obj]: the elements of a list, the keys of a dict, the
    characters of a string. *)
Definition iter (obj : json) : result (list json) :=
  match obj with
  | JArr items => Ok items
  | JObj members => Ok (map (fun kv => JStr (fst kv)) members)
  | JStr s => Ok (chars s)
  | _ => Raise (Exn "TypeError"
                 ("'" +:+ type_name obj +:+ "' object is not iterable"))
  end.

Fixpoint is_prefix (needle s : string) : bool :=
  match needle, s with
  | EmptyString, _ => true
  | String a n', String b s' => Ascii.eqb a b && is_prefix n' s'
  | String _ _, EmptyString => false
  end.

Fixpoint is_substring (needle s : string) : bool :=
  is_prefix needle s ||
  match s with
  | EmptyString => false
  | String _ s' => is_substring needle s'
  end.

Definition is_str (key : string) (j : json) : bool :=
  match j with JStr s => String.eqb s key | _ => false end.

(** [key in obj] for a string [key]: a key of a dict, an element of a
    list, a substring of a string. *)
Definition contains (key : string) (obj : json) : result bool :=
  match obj with
  | JObj members => Ok (bool_decide (is_Some (assoc key members)))
  | JArr items => Ok (existsb (is_str key) items)
  | JStr s => Ok (is_substring key s)
  | _ => Raise (Exn "TypeError"
                 ("argument of type '" +:+ type_name obj +:+ "' is not iterable"))
  end.

(** [obj[key]] for a string [key] *)
Definition getitem (obj : json) (key : string) : result json :=
  match obj with
  | JObj members =>
      match assoc key members with
      | Some v => Ok v
      | None => Raise (Exn "KeyError" ("'" +:+ key +:+ "'"))
      end
  | JStr _ => Raise (Exn "TypeError" "string indices must be integers, not 'str'")
  | JArr _ => Raise (Exn "TypeError" "list indices must be integers or slices, not str")
  | _ => Raise (Exn "TypeError"
                 ("'" +:+ type_name obj +:+ "' object is not subscriptable"))
  end.

End PyVal.

(** ** The request types of the provider's client library ([google.genai.types]) *)

Inductive HarmCategory : Type :=
| HARM_CATEGORY_UNSPECIFIED
| HARM_CATEGORY_HATE_SPEECH
| HARM_CATEGORY_DANGEROUS_CONTENT
| HARM_CATEGORY_HARASSMENT
| HARM_CATEGORY_SEXUALLY_EXPLICIT
| HARM_CATEGORY_CIVIC_INTEGRITY.

Inductive HarmBlockThreshold : Type :=
| HARM_BLOCK_THRESHOLD_UNSPECIFIED
| BLOCK_LOW_AND_ABOVE
| BLOCK_MEDIUM_AND_ABOVE
| BLOCK_ONLY_HIGH
| BLOCK_NONE
| OFF.

Record SafetySetting : Type := {
  category : HarmCategory;
  threshold : HarmBlockThreshold
}.

Inductive Part : Type :=
| Part_from_text (text : string).

Record Content : Type := {
  role : string;
  parts : list Part
}.

Record GenerateContentConfig : Type := {
  safety_settings : list SafetySetting
}.

(** ** The world of one run *)

(** What the program shows and what it sends.  Layout calls of the page
    ([st.markdown], [st.header], [st.subheader], [st.write], the spinner)
    leave no event; the time-stamped file name of a download button is not
    recorded, and the pictograph that opens a message or a label in the
    source (a code point above 255) is left out of its text. *)
Inductive event : Type :=
| StWarning (msg : string)
| StError (msg : string)
| StSuccess (msg : string)
| StTextArea (label : string) (value : json)
| StDownloadButton (label : string) (data : json)
| RequestsGet (url : string) (stream : bool)
| RequestsPostFiles (url : string) (display_name : string)
                    (content : list byte) (mime_type : string)
| RequestsPostData (url : string) (headers : list (string * string)) (body : json)
| GenaiGenerateContent (api_key model : string) (contents : list Content)
                       (config : GenerateContentConfig).

Record world : Type := World {
  fs : gmap string (list byte);      (* the files on local storage *)
  trace : list event                 (* oldest event first *)
}.

(** A response of [requests.post]. *)
Record http_response : Type := HttpResponse {
  status_code : Z;
  text : string;
  json_body : result json            (* [response.json()] *)
}.

(** A response of [requests.get(..., stream=True)]. *)
Record stream_response : Type := StreamResponse {
  raise_for_status : option exn;     (* [Some] for a 4xx or 5xx status *)
  iter_content : list (list byte);   (* the chunks that arrive *)
  iter_error : option exn            (* raised when asking for the next one *)
}.

(** The outcome of every interaction with the outside during one run.
    The exceptions it holds are subclasses of [Exception].
    [genai_client_error k] is what building the SDK client with the key [k]
    raises, if anything (the SDK refuses to build a client when it finds no
    key); [generate_content] is the outcome of the call itself. *)
Record Env : Type := {
  TRANSCRIPT_GEMINI_API_KEY : string;
  GEMINI_API_KEY : string;
  TMP_MAX : nat;
  candidate_names : nat -> string;   (* directory, prefix and random part *)
  os_open_error : option exn;        (* creating a file fails outright *)
  write_error : nat -> option exn;   (* the n-th write to the file fails *)
  requests_get : result stream_response;
  upload_post : result http_response;
  generate_post : result http_response;
  genai_client_error : string -> option exn;  (* [genai.Client(api_key=k)] *)
  generate_content : result (option string);  (* [response.text] *)
  download_button_error : json -> option exn
}.

(** ** Computations *)

Definition M (A : Type) : Type := world -> result A * world.

Definition ret {A} (a : A) : M A := fun w => (Ok a, w).
Definition raise {A} (e : exn) : M A := fun w => (Raise e, w).
Definition bind {A B} (m : M A) (k : A -> M B) : M B :=
  fun w => match m w with
           | (Ok a, w') => k a w'
           | (Raise e, w') => (Raise e, w')
           end.
Definition lift {A} (r : result A) : M A := fun w => (r, w).

Notation "'let!' x ':=' m 'in' k" := (bind m (fun x => k))
  (at level 10, x name, m at level 100, k at level 200).
Notation "'run!' m 'in' k" := (bind m (fun _ => k))
  (at level 10, m at level 100, k at level 200).

(** [try: m except Exception as e: h e] *)
Definition try_except {A} (m : M A) (h : exn -> M A) : M A :=
  fun w => match m w with
           | (Ok a, w') => (Ok a, w')
           | (Raise e, w') => h e w'
           end.

(** [try: x = stage; body x finally: fin], where [fin] is told whether the
    assignment to [x] took place ([None]: the name is not bound).  An
    exception of [fin] replaces the outcome of the [try] block. *)
Definition try_finally {X A} (stage : M X) (body : X -> M A)
    (fin : option X -> M unit) : M A :=
  fun w =>
    match stage w with
    | (Raise e, w1) =>
        match fin None w1 with
        | (Ok _, w2) => (Raise e, w2)
        | (Raise e', w2) => (Raise e', w2)
        end
    | (Ok x, w1) =>
        let (r, w2) := body x w1 in
        match fin (Some x) w2 with
        | (Ok _, w3) => (r, w3)
        | (Raise e', w3) => (Raise e', w3)
        end
    end.

Definition emit (ev : event) : M unit :=
  fun w => (Ok tt, World (fs w) (trace w ++ [ev])).

Definition st_warning (msg : string) : M unit := emit (StWarning msg).
Definition st_error (msg : string) : M unit := emit (StError msg).
Definition st_success (msg : string) : M unit := emit (StSuccess msg).

(** *** Files *)

(** The loop of [tempfile._mkstemp_inner]: the first candidate name that
    does not exist yet, among [TMP_MAX] attempts. *)
Fixpoint mkstemp_inner (names : nat -> string) (suf : string)
    (files : gmap string (list byte)) (seq fuel : nat) : option string :=
  match fuel with
  | O => None
  | S fuel' =>
      let file := names seq +:+ suf in
      match files !! file with
      | None => Some file
      | Some _ => mkstemp_inner names suf files (S seq) fuel'
      end
  end.

(** [tempfile.NamedTemporaryFile(delete=False, suffix=suf)]: creates an
    empty file and gives its name. *)
Definition NamedTemporaryFile (env : Env) (suf : string) : M string :=
  fun w =>
    match os_open_error env with
    | Some e => (Raise e, w)
    | None =>
        match mkstemp_inner (candidate_names env) suf (fs w) 0 (TMP_MAX env) with
        | None => (Raise (Exn "FileExistsError"
                            "[Errno 17] No usable temporary file name found"), w)
        | Some file => (Ok file, World (<[file := []]> (fs w)) (trace w))
        end
    end.

(** [tmp_file.write(data)], the [n]-th write of the run to that file *)
Definition file_write (env : Env) (n : nat) (file : string) (data : list byte)
    : M unit :=
  fun w =>
    match write_error env n with
    | Some e => (Raise e, w)
    | None =>
        (Ok tt, World (<[file := default [] (fs w !! file) ++ data]> (fs w))
                      (trace w))
    end.

(** [os.path.exists(path)] for a [str] path *)
Definition os_path_exists (path : string) : M bool :=
  fun w => (Ok (bool_decide (is_Some (fs w !! path))), w).

(** [os.unlink(path)] *)
Definition os_unlink (path : string) : M unit :=
  fun w =>
    match fs w !! path with
    | Some _ => (Ok tt, World (delete path (fs w)) (trace w))
    | None => (Raise (Exn "FileNotFoundError"
                        ("[Errno 2] No such file or directory: '" +:+ path +:+ "'")), w)
    end.

(** [open(path, 'rb')] and reading the whole file *)
Definition open_rb (path : string) : M (list byte) :=
  fun w =>
    match fs w !! path with
    | Some content => (Ok content, w)
    | None => (Raise (Exn "FileNotFoundError"
                        ("[Errno 2] No such file or directory: '" +:+ path +:+ "'")), w)
    end.

(** ** The program *)

(** *** [download_audio_from_url] *)

(** The [for chunk in response.iter_content(...)] loop; [n] counts the
    writes made so far. *)
Fixpoint write_chunks (env : Env) (tmp_file : string)
    (chunks : list (list byte)) (n : nat) : M unit :=
  match chunks with
  | [] => ret tt
  | chunk :: rest =>
      run! file_write env n tmp_file chunk in
      write_chunks env tmp_file rest (S n)
  end.

Definition download_audio_from_url (env : Env) (audio_url : string)
    : M (option string) :=
  try_except
    (run! emit (RequestsGet audio_url true) in
     let! response := lift (requests_get env) in
     run! (match raise_for_status response with
           | Some e => raise e
           | None => ret tt
           end) in
     let! tmp_file := NamedTemporaryFile env ".wav" in
     run! write_chunks env tmp_file (iter_content response) 0 in
     run! (match iter_error response with
           | Some e => raise e
           | None => ret tt
           end) in
     let tmp_path := tmp_file in
     ret (Some tmp_path))
    (fun e =>
       run! st_error ("Error downloading audio from URL: " +:+ str_exn e) in
       ret None).

(** *** [upload_audio_to_gemini] *)

Definition upload_url (env : Env) : string :=
  "https://generativelanguage.googleapis.com/upload/v1beta/files?key="
  +:+ TRANSCRIPT_GEMINI_API_KEY env.

(** The result is the pair [(mime_type, file_uri)], or [(None, None)]. *)
Definition upload_audio_to_gemini (env : Env) (audio_path display_name : string)
    : M (json * json) :=
  try_except
    (let mime_type := mime_type_for audio_path in
     let! audio_file := open_rb audio_path in
     run! emit (RequestsPostFiles (upload_url env) display_name audio_file
                                  mime_type) in
     let! response := lift (upload_post env) in
     if negb (status_code response =? 200)
     then raise (Exn "Exception"
                   ("Failed to upload file. Response: " +:+ text response))
     else
       let! response_json := lift (json_body response) in
       let! file := lift (PyVal.get response_json "file" (JObj [])) in
       let! file_uri := lift (PyVal.get file "uri" JNull) in
       if negb (PyVal.truthy file_uri)
       then raise (Exn "Exception" "No file URI returned from upload")
       else ret (JStr mime_type, file_uri))
    (fun e =>
       run! st_error ("Error uploading audio file: " +:+ str_exn e) in
       ret (JNull, JNull)).

(** *** [generate_transcript_from_audio] *)

Definition generate_url (env : Env) : string :=
  "https://generativelanguage.googleapis.com/v1beta/models/gemini-2.0-flash:generateContent?key="
  +:+ TRANSCRIPT_GEMINI_API_KEY env.

Definition generate_headers : list (string * string) :=
  [("Content-Type", "application/json")].

Definition generate_body (prompt : string) (mime_type file_uri : json) : json :=
  JObj [("contents",
         JArr [JObj [("parts",
                      JArr [JObj [("text", JStr prompt)];
                            JObj [("file_data",
                                   JObj [("mime_type", mime_type);
                                         ("file_uri", file_uri)])]])]])].

(** The inner loop: [Some v] when the loop returns [v] from the function,
    [None] when it runs to its end. *)
Fixpoint scan_parts (parts : list json) : result (option json) :=
  match parts with
  | [] => Ok None
  | part :: rest =>
      rbind (PyVal.contains "text" part) (fun found =>
        if found
        then rbind (PyVal.getitem part "text") (fun v => Ok (Some v))
        else scan_parts rest)
  end.

(** The outer loop, over the candidates. *)
Fixpoint scan_candidates (candidates : list json) : result (option json) :=
  match candidates with
  | [] => Ok None
  | candidate :: rest =>
      rbind (PyVal.get candidate "content" (JObj [])) (fun content =>
      rbind (PyVal.get content "parts" (JArr [])) (fun parts =>
      rbind (PyVal.iter parts) (fun parts_seq =>
      rbind (scan_parts parts_seq) (fun returned =>
        match returned with
        | Some v => Ok (Some v)
        | None => scan_candidates rest
        end))))
  end.

(** Lines 145 to 150: the transcript taken out of the response, [None]
    when both loops run to their end. *)
Definition extract_transcript (response_json : json) : result json :=
  rbind (PyVal.get response_json "candidates" (JArr [])) (fun candidates =>
  rbind (PyVal.iter candidates) (fun candidates_seq =>
  rbind (scan_candidates candidates_seq) (fun returned =>
    Ok (default JNull returned)))).

Definition generate_transcript_from_audio (env : Env)
    (audio_path display_name user_prompt : string) : M json :=
  try_except
    (let prompt := user_prompt in
     let! uploaded := upload_audio_to_gemini env audio_path display_name in
     let mime_type := fst uploaded in
     let file_uri := snd uploaded in
     if negb (PyVal.truthy file_uri)
     then ret JNull
     else
       run! emit (RequestsPostData (generate_url env) generate_headers
                    (generate_body prompt mime_type file_uri)) in
       let! generate_response := lift (generate_post env) in
       if negb (status_code generate_response =? 200)
       then raise (Exn "Exception"
                     ("Failed to generate content. Response: "
                      +:+ text generate_response))
       else
         let! response_json := lift (json_body generate_response) in
         lift (extract_transcript response_json))
    (fun e =>
       run! st_error ("Error generating transcript: " +:+ str_exn e) in
       ret JNull).

(** *** [process_text_with_gemini] *)

Definition newline : string := String "010"%char EmptyString.

Definition instruction : string :=
  "Give Proper JSON output as mentioned in the format, that will make it easier to parse.".

Definition process_contents (prompt transcript : string) : list Content :=
  [ {| role := "user";
       parts := [Part_from_text
                   (instruction +:+ newline +:+ prompt +:+ newline +:+ transcript)] |} ].

Definition process_config : GenerateContentConfig :=
  {| safety_settings :=
       [ {| category := HARM_CATEGORY_HATE_SPEECH; threshold := BLOCK_NONE |};
         {| category := HARM_CATEGORY_SEXUALLY_EXPLICIT; threshold := BLOCK_NONE |};
         {| category := HARM_CATEGORY_HARASSMENT; threshold := BLOCK_NONE |};
         {| category := HARM_CATEGORY_DANGEROUS_CONTENT; threshold := BLOCK_NONE |} ] |}.

(** The result is the text of the response, or [None].  The first
    statement of the [try] block builds the client and may raise. *)
Definition process_text_with_gemini (env : Env) (prompt transcript : string)
    : M (option string) :=
  try_except
    (run! (match genai_client_error env (GEMINI_API_KEY env) with
           | Some e => raise e
           | None => ret tt
           end) in
     let model := "gemini-2.0-flash" in
     let contents := process_contents prompt transcript in
     let config := process_config in
     run! emit (GenaiGenerateContent (GEMINI_API_KEY env) model contents config) in
     let! response_text := lift (generate_content env) in
     ret (match response_text with
          | Some t => if PyStr.truthy t then Some t else None
          | None => None
          end))
    (fun e =>
       run! st_error ("Error processing with Gemini: " +:+ str_exn e) in
       ret None).

(** *** [main] *)

(** The file object of [st.file_uploader]. *)
Record uploaded_file : Type := {
  name : string;
  getvalue : list byte
}.

(** The second radio of the transcription mode and the widget under it. *)
Inductive input_method : Type :=
| UploadAudioFile (uploaded : option uploaded_file)
| AudioURLLink (audio_url : string).

(** What the user has entered when the script runs; the booleans say
    whether the button, if it is drawn, was pressed. *)
Inductive page : Type :=
| AudioTranscription (audio_prompt : string) (input : input_method)
                     (generate_pressed : bool)
| PromptTranscriptProcessing (prompt transcript : string)
                             (process_pressed : bool).

(** [audio_url.split('/')[-1].split('?')[0] or "audio_file"] *)
Definition display_name_of_url (audio_url : string) : string :=
  let last_segment := List.last (PyStr.split "/"%char audio_url) EmptyString in
  let stem := List.hd EmptyString (PyStr.split "?"%char last_segment) in
  if PyStr.truthy stem then stem else "audio_file".

(** [st.download_button(label=..., data=...)] *)
Definition st_download_button (env : Env) (label : string) (data : json)
    : M unit :=
  match download_button_error env data with
  | Some e => raise e
  | None => emit (StDownloadButton label data)
  end.

(** The [with tempfile.NamedTemporaryFile(...)] block of the upload branch,
    up to the assignment of [tmp_path]. *)
Definition save_uploaded_file (env : Env) (f : uploaded_file) : M (option string) :=
  let! tmp_file :=
    NamedTemporaryFile env (snd (OsPath.splitext (name f))) in
  run! file_write env 0 tmp_file (getvalue f) in
  ret (Some tmp_file).

(** The [finally] block.  [None]: ['tmp_path' in locals()] is false;
    [Some None]: the name is bound to [None], and [os.path.exists(None)]
    raises; [Some (Some p)]: the name is bound to the path [p]. *)
Definition cleanup (tmp_path : option (option string)) : M unit :=
  match tmp_path with
  | None => ret tt
  | Some None =>
      raise (Exn "TypeError"
               "stat: path should be string, bytes, os.PathLike or integer, not NoneType")
  | Some (Some p) =>
      let! there := os_path_exists p in
      if there then os_unlink p else ret tt
  end.

(** The statements of the [try] block after [tmp_path] is assigned.  In
    the upload branch [tmp_path] is a path; in the URL branch a false
    [tmp_path] ends the handler ([return]). *)
Definition transcribe_staged (env : Env) (url_source : bool)
    (display_name audio_prompt : string) (tmp_path : option string) : M unit :=
  match tmp_path with
  | None => st_error "Failed to download audio from URL"
  | Some p =>
      if url_source && negb (PyStr.truthy p)
      then st_error "Failed to download audio from URL"
      else
        let! transcript :=
          generate_transcript_from_audio env p display_name audio_prompt in
        if PyVal.truthy transcript
        then
          run! st_success "Transcript generated successfully!" in
          run! emit (StTextArea "Transcript" transcript) in
          st_download_button env "Download Transcript" transcript
        else st_error "Failed to generate transcript. Please try again."
  end.

(** The first statement of the [try] block, which assigns [tmp_path]:
    from the uploaded file ([inl]) or from the URL ([inr]). *)
Definition stage_audio (env : Env) (source : uploaded_file + string)
    : M (option string) :=
  match source with
  | inl f => save_uploaded_file env f
  | inr audio_url => download_audio_from_url env audio_url
  end.

Definition from_url (source : uploaded_file + string) : bool :=
  match source with inl _ => false | inr _ => true end.

(** The body of [if st.button("Generate Transcript")]. *)
Definition on_generate_transcript (env : Env) (audio_prompt : string)
    (source : uploaded_file + string) (display_name : string) : M unit :=
  if negb (PyStr.truthy (PyStr.strip audio_prompt))
  then st_warning "Please enter a transcription prompt"
  else
    try_finally
      (stage_audio env source)
      (transcribe_staged env (from_url source) display_name audio_prompt)
      cleanup.

(** The body of [if st.button("Process with Gemini")]. *)
Definition on_process (env : Env) (prompt transcript : string) : M unit :=
  if negb (PyStr.truthy (PyStr.strip prompt))
  then st_warning "Please enter a prompt"
  else if negb (PyStr.truthy (PyStr.strip transcript))
  then st_warning "Please enter a transcript"
  else
    let! result := process_text_with_gemini env prompt transcript in
    match result with
    | Some r =>
        run! st_success "Processing completed successfully!" in
        run! emit (StTextArea "Result" (JStr r)) in
        st_download_button env "Download Result" (JStr r)
    | None => st_error "Failed to process. Please try again."
    end.

Definition main (env : Env) (ui : page) : M unit :=
  match ui with
  | AudioTranscription audio_prompt (UploadAudioFile (Some f)) pressed =>
      let display_name := name f in
      if pressed
      then on_generate_transcript env audio_prompt (inl f) display_name
      else ret tt
  | AudioTranscription audio_prompt (UploadAudioFile None) _ => ret tt
  | AudioTranscription audio_prompt (AudioURLLink audio_url) pressed =>
      if PyStr.truthy audio_url
      then
        let display_name := display_name_of_url audio_url in
        if pressed
        then on_generate_transcript env audio_prompt (inr audio_url) display_name
        else ret tt
      else ret tt
  | PromptTranscriptProcessing prompt transcript pressed =>
      if pressed then on_process env prompt transcript else ret tt
  end.

(** A run of the script from a given file system, with an empty trace. *)
Definition run_main (env : Env) (ui : page) (files : gmap string (list byte))
    : result unit * world :=
  main env ui (World files []).

(** * Notions of the specification *)

(** ** The extension table *)

(** The extension table as the specification gives it. *)
Definition extension_table : list (string * string) :=
  [ (".wav", "audio/wav"); (".mp3", "audio/mpeg"); (".m4a", "audio/mp4");
    (".ogg", "audio/ogg"); (".flac", "audio/flac") ].

Fixpoint table_lookup (ext : string) (table : list (string * string))
    : option string :=
  match table with
  | [] => None
  | (e, m) :: rest => if String.eqb ext e then Some m else table_lookup ext rest
  end.

(** ** Failures of the download *)

(** What can go wrong while staging a URL: the request, its status, the
    creation of the file, one of the writes, the stream. *)
Definition download_failure (env : Env) (files : gmap string (list byte))
    (e : exn) : Prop :=
  requests_get env = Raise e \/
  exists response, requests_get env = Ok response /\
    (raise_for_status response = Some e \/
     os_open_error env = Some e \/
     (mkstemp_inner (candidate_names env) ".wav" files 0 (TMP_MAX env) = None /\
      exn_class e = "FileExistsError") \/
     (exists n, (n < length (iter_content response))%nat /\
                write_error env n = Some e) \/
     iter_error response = Some e).

(** ** Provider responses *)

(** The nested file URI of an upload response, as the interface describes
    it: the [uri] member of the [file] member of the JSON body. *)
Definition nested_file_uri (response : http_response) : option json :=
  match json_body response with
  | Ok (JObj members) =>
      match PyVal.assoc "file" members with
      | Some (JObj file) => PyVal.assoc "uri" file
      | _ => None
      end
  | _ => None
  end.

(** The response shape of the provider's interface,
    [candidates[].content.parts[]]: the members that are present have the
    types the interface gives them. *)
Definition is_dict (j : json) : bool :=
  match j with JObj _ => true | _ => false end.

Definition candidate_shaped (candidate : json) : bool :=
  match candidate with
  | JObj members =>
      match PyVal.assoc "content" members with
      | None => true
      | Some (JObj content) =>
          match PyVal.assoc "parts" content with
          | None => true
          | Some (JArr ps) => forallb is_dict ps
          | Some _ => false
          end
      | Some _ => false
      end
  | _ => false
  end.

Definition response_shaped (response_json : json) : bool :=
  match response_json with
  | JObj members =>
      match PyVal.assoc "candidates" members with
      | None => true
      | Some (JArr cs) => forallb candidate_shaped cs
      | Some _ => false
      end
  | _ => false
  end.

(** The first textual part, in the words of the specification: all the
    parts of all the candidates, in order, and the [text] member of the
    first of them that has one. *)
Definition candidates_of (response_json : json) : list json :=
  match response_json with
  | JObj members =>
      match PyVal.assoc "candidates" members with
      | Some (JArr cs) => cs
      | _ => []
      end
  | _ => []
  end.

Definition parts_of (candidate : json) : list json :=
  match candidate with
  | JObj members =>
      match PyVal.assoc "content" members with
      | Some (JObj content) =>
          match PyVal.assoc "parts" content with
          | Some (JArr ps) => ps
          | _ => []
          end
      | _ => []
      end
  | _ => []
  end.

Definition text_of (part : json) : option json :=
  match part with
  | JObj members => PyVal.assoc "text" members
  | _ => None
  end.

Fixpoint first_text (ps : list json) : option json :=
  match ps with
  | [] => None
  | part :: rest =>
      match text_of part with
      | Some v => Some v
      | None => first_text rest
      end
  end.

Definition first_text_part (response_json : json) : option json :=
  first_text (flat_map parts_of (candidates_of response_json)).

(** ** The page and its calls *)

(** The source and the display name the "Generate Transcript" button works
    on; [None] when the button is not drawn. *)
Definition transcription_source (input : input_method)
    : option ((uploaded_file + string) * string) :=
  match input with
  | UploadAudioFile (Some f) => Some (inl f, name f)
  | UploadAudioFile None => None
  | AudioURLLink audio_url =>
      if PyStr.truthy audio_url
      then Some (inr audio_url, display_name_of_url audio_url)
      else None
  end.

(** The action button of the page is drawn and pressed. *)
Definition button_pressed (ui : page) : bool :=
  match ui with
  | AudioTranscription _ input pressed =>
      bool_decide (is_Some (transcription_source input)) && pressed
  | PromptTranscriptProcessing _ _ pressed => pressed
  end.

(** The warning an empty or white-space-only input calls for. *)
Definition blank_warning (ui : page) : option string :=
  match ui with
  | AudioTranscription audio_prompt _ _ =>
      if PyStr.all_space audio_prompt
      then Some "Please enter a transcription prompt"
      else None
  | PromptTranscriptProcessing prompt transcript _ =>
      if PyStr.all_space prompt then Some "Please enter a prompt"
      else if PyStr.all_space transcript then Some "Please enter a transcript"
      else None
  end.

Definition is_generate_call (ev : event) : bool :=
  match ev with RequestsPostData _ _ _ => true | _ => false end.

(** The messages and the configurations of the calls to the SDK in a trace. *)
Fixpoint sent_contents (tr : list event) : list (list Content) :=
  match tr with
  | [] => []
  | GenaiGenerateContent _ _ contents _ :: rest => contents :: sent_contents rest
  | _ :: rest => sent_contents rest
  end.

Fixpoint sent_configs (tr : list event) : list GenerateContentConfig :=
  match tr with
  | [] => []
  | GenaiGenerateContent _ _ _ config :: rest => config :: sent_configs rest
  | _ :: rest => sent_configs rest
  end.

(** The instruction as the specification words it, and the message it
    describes. *)
Definition specified_instruction : string :=
  "produce well-formed JSON matching the described format".

Definition specified_message (prompt transcript : string) : Content :=
  {| role := "user";
     parts := [Part_from_text (specified_instruction +:+ newline +:+ prompt
                               +:+ newline +:+ transcript)] |}.

(** The four harm categories of the specification. *)
Definition four_harm_categories : list HarmCategory :=
  [ HARM_CATEGORY_HATE_SPEECH; HARM_CATEGORY_SEXUALLY_EXPLICIT;
    HARM_CATEGORY_HARASSMENT; HARM_CATEGORY_DANGEROUS_CONTENT ].

(** An environment with another text in the response of the SDK. *)
Definition with_response_text (env : Env) (t : option string) : Env :=
  {| TRANSCRIPT_GEMINI_API_KEY := TRANSCRIPT_GEMINI_API_KEY env;
     GEMINI_API_KEY := GEMINI_API_KEY env;
     TMP_MAX := TMP_MAX env;
     candidate_names := candidate_names env;
     os_open_error := os_open_error env;
     write_error := write_error env;
     requests_get := requests_get env;
     upload_post := upload_post env;
     generate_post := generate_post env;
     genai_client_error := genai_client_error env;
     generate_content := Ok t;
     download_button_error := download_button_error env |}.

(** ** Remote calls in a trace *)

Inductive call : Type :=
| CallGet          (* [requests.get] of the audio URL *)
| CallUpload       (* [requests.post] to the files endpoint *)
| CallGenerate     (* [requests.post] to the generateContent endpoint *)
| CallSdk.         (* [client.models.generate_content] *)

(** The remote calls of a trace, in the order they were made. *)
Fixpoint calls (tr : list event) : list call :=
  match tr with
  | [] => []
  | RequestsGet _ _ :: rest => CallGet :: calls rest
  | RequestsPostFiles _ _ _ _ :: rest => CallUpload :: calls rest
  | RequestsPostData _ _ _ :: rest => CallGenerate :: calls rest
  | GenaiGenerateContent _ _ _ _ :: rest => CallSdk :: calls rest
  | _ :: rest => calls rest
  end.

(** The warnings of a trace, in the order they were shown. *)
Fixpoint warnings (tr : list event) : list string :=
  match tr with
  | [] => []
  | StWarning msg :: rest => msg :: warnings rest
  | _ :: rest => warnings rest
  end.

(** Does the character occur in the string? *)
Fixpoint contains_char (c : ascii) (s : string) : bool :=
  match s with
  | EmptyString => false
  | String a s' => Ascii.eqb a c || contains_char c s'
  end.

(** A candidate name as [tempfile] builds them: a directory, a slash and a
    base name that is not empty and holds neither a dot nor a slash. *)
Definition plain_candidate (cand : string) : Prop :=
  exists dir base,
    cand = dir +:+ String "/"%char base /\
    PyStr.truthy base = true /\
    contains_char "."%char base = false /\
    contains_char "/"%char base = false.

(** The file name of a path: what follows its last slash. *)
Fixpoint basename (p : string) : string :=
  match p with
  | EmptyString => EmptyString
  | String a p' =>
      if contains_char "/"%char p' then basename p'
      else if Ascii.eqb a "/"%char then p' else p
  end.

Fixpoint only_dots (s : string) : bool :=
  match s with
  | EmptyString => true
  | String a s' => Ascii.eqb a "."%char && only_dots s'
  end.

(** The path, before its extension, names a file: its file name holds a
    character other than a dot. *)
Definition has_name (stem : string) : bool := negb (only_dots (basename stem)).

(** The capital of an ASCII small letter; other characters stay. *)
Definition ascii_upper (c : ascii) : ascii :=
  let n := PyStr.ord c in
  if (97 <=? n) && (n <=? 122) then PyStr.chr (n - 32) else c.

(** [x] is [k] with some of its small letters written as capitals. *)
Fixpoint case_variant_of (k x : string) : bool :=
  match k, x with
  | EmptyString, EmptyString => true
  | String a k', String b x' =>
      (Ascii.eqb b a || Ascii.eqb b (ascii_upper a)) && case_variant_of k' x'
  | _, _ => false
  end.

(** The [TypeError] of [os.path.exists(None)]. *)
Definition exists_none_error : exn :=
  Exn "TypeError"
    "stat: path should be string, bytes, os.PathLike or integer, not NoneType".

(** An environment with another outcome of the upload, of the generate
    call, of the download button. *)
Definition with_upload_response (env : Env) (response : http_response) : Env :=
  {| TRANSCRIPT_GEMINI_API_KEY := TRANSCRIPT_GEMINI_API_KEY env;
     GEMINI_API_KEY := GEMINI_API_KEY env;
     TMP_MAX := TMP_MAX env;
     candidate_names := candidate_names env;
     os_open_error := os_open_error env;
     write_error := write_error env;
     requests_get := requests_get env;
     upload_post := Ok response;
     generate_post := generate_post env;
     genai_client_error := genai_client_error env;
     generate_content := generate_content env;
     download_button_error := download_button_error env |}.

Definition with_generate_response (env : Env) (response : http_response) : Env :=
  {| TRANSCRIPT_GEMINI_API_KEY := TRANSCRIPT_GEMINI_API_KEY env;
     GEMINI_API_KEY := GEMINI_API_KEY env;
     TMP_MAX := TMP_MAX env;
     candidate_names := candidate_names env;
     os_open_error := os_open_error env;
     write_error := write_error env;
     requests_get := requests_get env;
     upload_post := upload_post env;
     generate_post := Ok response;
     genai_client_error := genai_client_error env;
     generate_content := generate_content env;
     download_button_error := download_button_error env |}.

Definition with_download_button_error (env : Env) (e : exn) : Env :=
  {| TRANSCRIPT_GEMINI_API_KEY := TRANSCRIPT_GEMINI_API_KEY env;
     GEMINI_API_KEY := GEMINI_API_KEY env;
     TMP_MAX := TMP_MAX env;
     candidate_names := candidate_names env;
     os_open_error := os_open_error env;
     write_error := write_error env;
     requests_get := requests_get env;
     upload_post := upload_post env;
     generate_post := generate_post env;
     genai_client_error := genai_client_error env;
     generate_content := generate_content env;
     download_button_error := fun _ => Some e |}.

(** An environment whose first write to the temporary file fails, and one
    whose SDK call raises. *)
Definition with_write_error (env : Env) (e : exn) : Env :=
  {| TRANSCRIPT_GEMINI_API_KEY := TRANSCRIPT_GEMINI_API_KEY env;
     GEMINI_API_KEY := GEMINI_API_KEY env;
     TMP_MAX := TMP_MAX env;
     candidate_names := candidate_names env;
     os_open_error := os_open_error env;
     write_error := fun _ => Some e;
     requests_get := requests_get env;
     upload_post := upload_post env;
     generate_post := generate_post env;
     genai_client_error := genai_client_error env;
     generate_content := generate_content env;
     download_button_error := download_button_error env |}.

Definition with_client_error (env : Env) (e : exn) : Env :=
  {| TRANSCRIPT_GEMINI_API_KEY := TRANSCRIPT_GEMINI_API_KEY env;
     GEMINI_API_KEY := GEMINI_API_KEY env;
     TMP_MAX := TMP_MAX env;
     candidate_names := candidate_names env;
     os_open_error := os_open_error env;
     write_error := write_error env;
     requests_get := requests_get env;
     upload_post := upload_post env;
     generate_post := generate_post env;
     genai_client_error := fun _ => Some e;
     generate_content := generate_content env;
     download_button_error := download_button_error env |}.

Definition with_sdk_error (env : Env) (e : exn) : Env :=
  {| TRANSCRIPT_GEMINI_API_KEY := TRANSCRIPT_GEMINI_API_KEY env;
     GEMINI_API_KEY := GEMINI_API_KEY env;
     TMP_MAX := TMP_MAX env;
     candidate_names := candidate_names env;
     os_open_error := os_open_error env;
     write_error := write_error env;
     requests_get := requests_get env;
     upload_post := upload_post env;
     generate_post := generate_post env;
     genai_client_error := genai_client_error env;
     generate_content := Raise e;
     download_button_error := download_button_error env |}.

(** ** Sample runs *)

Module Sample.

Definition ok_response (j : json) : http_response :=
  {| status_code := 200; text := ""; json_body := Ok j |}.

Definition upload_answer : json :=
  JObj [("file", JObj [("name", JStr "files/abc123");
                       ("uri", JStr "https://generativelanguage.googleapis.com/v1beta/files/abc123")])].

Definition generate_answer : json :=
  JObj [("candidates",
         JArr [JObj [("content", JObj [("role", JStr "model")])];
               JObj [("content",
                      JObj [("parts", JArr [JObj [("thought", JBool true)];
                                            JObj [("text", JStr "hello world")];
                                            JObj [("text", JStr "again")]])])]])].

(** Everything works: the download delivers two chunks, the provider
    answers both calls. *)
Definition env : Env :=
  {| TRANSCRIPT_GEMINI_API_KEY := "transcript-key";
     GEMINI_API_KEY := "text-key";
     TMP_MAX := Z.to_nat 10000;
     candidate_names := fun n =>
       "/tmp/tmp" +:+ String (PyStr.chr (97 + Z.of_nat n)) "k3x9_q";
     os_open_error := None;
     write_error := fun _ => None;
     requests_get := Ok {| raise_for_status := None;
                           iter_content := [[x52; x49]; [x46; x46]];
                           iter_error := None |};
     upload_post := Ok (ok_response upload_answer);
     generate_post := Ok (ok_response generate_answer);
     genai_client_error := fun _ => None;
     generate_content := Ok (Some "");
     download_button_error := fun _ => None |}.

(** The connection breaks after the first chunk of the body. *)
Definition broken_stream_env : Env :=
  {| TRANSCRIPT_GEMINI_API_KEY := "transcript-key";
     GEMINI_API_KEY := "text-key";
     TMP_MAX := Z.to_nat 10000;
     candidate_names := candidate_names env;
     os_open_error := None;
     write_error := fun _ => None;
     requests_get := Ok {| raise_for_status := None;
                           iter_content := [[x52; x49]];
                           iter_error := Some (Exn "ChunkedEncodingError"
                                                   "Connection broken: IncompleteRead") |};
     upload_post := upload_post env;
     generate_post := generate_post env;
     genai_client_error := genai_client_error env;
     generate_content := generate_content env;
     download_button_error := fun _ => None |}.

(** The provider refuses the upload. *)
Definition refused_upload_env : Env :=
  {| TRANSCRIPT_GEMINI_API_KEY := "transcript-key";
     GEMINI_API_KEY := "text-key";
     TMP_MAX := Z.to_nat 10000;
     candidate_names := candidate_names env;
     os_open_error := None;
     write_error := fun _ => None;
     requests_get := requests_get env;
     upload_post := Ok {| status_code := 403; text := "API key not valid";
                          json_body := Raise (Exn "JSONDecodeError"
                                                "Expecting value: line 1 column 1 (char 0)") |};
     generate_post := generate_post env;
     genai_client_error := genai_client_error env;
     generate_content := generate_content env;
     download_button_error := fun _ => None |}.

(** As [env], with one and the same candidate name at every attempt. *)
Definition fixed_name_env : Env :=
  {| TRANSCRIPT_GEMINI_API_KEY := "transcript-key";
     GEMINI_API_KEY := "text-key";
     TMP_MAX := Z.to_nat 10000;
     candidate_names := fun _ => "/tmp/tmpq7w2k_x1";
     os_open_error := None;
     write_error := fun _ => None;
     requests_get := requests_get env;
     upload_post := upload_post env;
     generate_post := generate_post env;
     genai_client_error := genai_client_error env;
     generate_content := generate_content env;
     download_button_error := fun _ => None |}.

Definition clip : uploaded_file :=
  {| name := "clip.mp3"; getvalue := [x49; x44; x33] |}.

Definition audio_url : string := "https://example.com/media/talk.mp3?token=1".

End Sample.

(** * Properties *)

(** ** Strings and paths *)

Section StringFacts.
Import PyStr.

Lemma lower_char_idem (c : ascii) : lower_char (lower_char c) = lower_char c.
Proof. destruct c as [[] [] [] [] [] [] [] []]; vm_compute; reflexivity. Qed.

Lemma lower_char_dot (c : ascii) :
  Ascii.eqb (lower_char c) "."%char = Ascii.eqb c "."%char.
Proof. destruct c as [[] [] [] [] [] [] [] []]; vm_compute; reflexivity. Qed.

Lemma lower_char_slash (c : ascii) :
  Ascii.eqb (lower_char c) "/"%char = Ascii.eqb c "/"%char.
Proof. destruct c as [[] [] [] [] [] [] [] []]; vm_compute; reflexivity. Qed.

Lemma lower_idem (s : string) : lower (lower s) = lower s.
Proof.
  induction s as [|c s IH]; simpl; [reflexivity|].
  now rewrite lower_char_idem, IH.
Qed.

Lemma length_lower (s : string) : String.length (lower s) = String.length s.
Proof. induction s as [|c s IH]; simpl; congruence. Qed.

Lemma get_lower (s : string) (n : nat) :
  String.get n (lower s) = option_map lower_char (String.get n s).
Proof.
  revert n; induction s as [|c s IH]; intros [|n]; simpl; auto.
Qed.

Lemma substring_lower (s : string) (n m : nat) :
  substring n m (lower s) = lower (substring n m s).
Proof.
  revert n m; induction s as [|c s IH]; intros [|n] [|m]; simpl;
    rewrite ?IH; reflexivity.
Qed.

Lemma rfind_from_lower (c : ascii) (s : string) (i acc : Z) :
  (forall a, Ascii.eqb (lower_char a) c = Ascii.eqb a c) ->
  rfind_from c (lower s) i acc = rfind_from c s i acc.
Proof.
  intros Hc; revert i acc; induction s as [|a s IH]; intros i acc; simpl;
    [reflexivity|].
  now rewrite Hc, IH.
Qed.

Lemma has_non_dot_lower (p : string) (i : Z) (fuel : nat) :
  OsPath.has_non_dot (lower p) i fuel = OsPath.has_non_dot p i fuel.
Proof.
  revert i; induction fuel as [|fuel IH]; intros i; simpl; [reflexivity|].
  rewrite get_lower.
  destruct (String.get (Z.to_nat i) p) as [a|]; simpl; [|reflexivity].
  now rewrite lower_char_dot, IH.
Qed.

(** Lowering a path lowers both halves of its split. *)
Lemma splitext_lower (p : string) :
  OsPath.splitext (lower p) =
  (lower (fst (OsPath.splitext p)), lower (snd (OsPath.splitext p))).
Proof.
  unfold OsPath.splitext, rfind, slice_to, slice_from.
  rewrite !rfind_from_lower by (apply lower_char_slash || apply lower_char_dot).
  rewrite has_non_dot_lower, length_lower, !substring_lower.
  destruct (_ && _); reflexivity.
Qed.

Lemma append_nonempty (s suf : string) :
  truthy suf = true -> truthy (s +:+ suf) = true.
Proof. destruct s; simpl; auto. Qed.

End StringFacts.

Lemma mime_type_map_table (ext : string) :
  mime_type_map !! ext = table_lookup ext extension_table.
Proof.
  unfold mime_type_map, extension_table; simpl.
  repeat match goal with
  | |- context [String.eqb ext ?k] =>
      destruct (String.eqb_spec ext k) as [->|?];
      [vm_compute; reflexivity|]
  end.
  rewrite !lookup_insert_ne by congruence.
  apply lookup_empty.
Qed.

(** ** Temporary files *)

Ltac unfold_M :=
  unfold try_except, bind, ret, raise, lift, emit, st_error, st_warning,
    st_success in *; simpl in *.

Lemma mkstemp_inner_fresh names suf (files : gmap string (list byte)) seq fuel file :
  mkstemp_inner names suf files seq fuel = Some file ->
  files !! file = None /\ exists n, file = names n +:+ suf.
Proof.
  revert seq; induction fuel as [|fuel IH]; intros seq; simpl; [discriminate|].
  destruct (files !! (names seq +:+ suf)) eqn:E.
  - apply IH.
  - intros [= <-]. eauto.
Qed.

(** The writing loop either stores every chunk or stops at the first write
    that fails, leaving the trace alone. *)
Lemma write_chunks_spec env tmp_file chunks (n : nat) (w : world) old :
  fs w !! tmp_file = Some old ->
  ((forall k, (k < length chunks)%nat -> write_error env (n + k) = None) /\
   write_chunks env tmp_file chunks n w =
     (Ok tt, World (<[tmp_file := old ++ concat chunks]> (fs w)) (trace w)))
  \/
  (exists e k w', (k < length chunks)%nat /\ write_error env (n + k) = Some e /\
     write_chunks env tmp_file chunks n w = (Raise e, w') /\
     trace w' = trace w /\ is_Some (fs w' !! tmp_file) /\
     forall p, p <> tmp_file -> fs w' !! p = fs w !! p).
Proof.
  revert n w old; induction chunks as [|chunk rest IH]; intros n w old Hold; simpl.
  - left. split; [intros k Hk; inversion Hk|].
    unfold ret. rewrite app_nil_r, insert_id by exact Hold. now destruct w.
  - unfold bind, file_write.
    destruct (write_error env n) as [e|] eqn:En.
    + right. exists e, 0%nat, w.
      rewrite Nat.add_0_r. repeat split; eauto; simpl; lia.
    + rewrite Hold; simpl.
      set (w1 := World (<[tmp_file := old ++ chunk]> (fs w)) (trace w)).
      destruct (IH (S n) w1 (old ++ chunk)) as [[Hall Heq]|(e & k & w' & Hk & He & Heq & Ht & Hf & Ho)].
      { subst w1; simpl. apply lookup_insert_eq. }
      * left. split.
        -- intros [|k] Hk; [now rewrite Nat.add_0_r|].
           replace (n + S k)%nat with (S n + k)%nat by lia. apply Hall. simpl in Hk. lia.
        -- rewrite Heq. subst w1; simpl.
           now rewrite insert_insert_eq, <- app_assoc.
      * right. exists e, (S k), w'.
        replace (n + S k)%nat with (S n + k)%nat by lia.
        repeat split; auto; [simpl; lia|].
        intros p Hp. rewrite Ho by exact Hp. subst w1; simpl.
        now rewrite lookup_insert_ne.
Qed.

(** ** The Remote Media Stager *)

(** The two outcomes of staging a URL. *)
Lemma download_audio_from_url_cases (env : Env) (audio_url : string) (w : world) :
  exists r w', download_audio_from_url env audio_url w = (Ok r, w') /\
    match r with
    | Some tmp_path =>
        exists response stem,
          requests_get env = Ok response /\
          raise_for_status response = None /\
          os_open_error env = None /\
          (forall n, (n < length (iter_content response))%nat ->
                     write_error env n = None) /\
          iter_error response = None /\
          tmp_path = stem +:+ ".wav" /\
          fs w !! tmp_path = None /\
          w' = World (<[tmp_path := concat (iter_content response)]> (fs w))
                     (trace w ++ [RequestsGet audio_url true])
    | None =>
        exists e, download_failure env (fs w) e /\
          trace w' = trace w ++
            [RequestsGet audio_url true;
             StError ("Error downloading audio from URL: " +:+ str_exn e)]
    end.
Proof.
  unfold download_audio_from_url, download_failure.
  unfold try_except at 1. unfold bind at 1. unfold emit at 1. cbv beta iota.
  unfold bind at 1. unfold lift at 1.
  destruct (requests_get env) as [response|e] eqn:Hget.
  2:{ exists None; eexists; split; [reflexivity|]. exists e; split; [auto|].
      simpl. now rewrite <- app_assoc. }
  unfold bind at 1.
  destruct (raise_for_status response) as [e|] eqn:Hst.
  { exists None; eexists; split; [reflexivity|]. exists e; split; [eauto 6|].
    simpl. now rewrite <- app_assoc. }
  unfold ret at 1. unfold bind at 1. unfold NamedTemporaryFile at 1.
  destruct (os_open_error env) as [e|] eqn:Hopen.
  { exists None; eexists; split; [reflexivity|]. exists e; split; [eauto 6|].
    simpl. now rewrite <- app_assoc. }
  cbn [fs trace].
  destruct (mkstemp_inner _ _ _ _ _) as [tmp_file|] eqn:Hmk.
  2:{ exists None; eexists; split; [reflexivity|].
      exists (Exn "FileExistsError" "[Errno 17] No usable temporary file name found").
      split; [right; exists response; split; [reflexivity|];
              right; right; left; split; reflexivity|].
      simpl. now rewrite <- app_assoc. }
  apply mkstemp_inner_fresh in Hmk as [Hfresh [k Hname]].
  set (w1 := World (<[tmp_file := []]> (fs w)) (trace w ++ [RequestsGet audio_url true])).
  unfold bind at 1.
  destruct (write_chunks_spec env tmp_file (iter_content response) 0 w1 [])
    as [[Hall Heq]|(e & n & w2 & Hn & He & Heq & Ht & _)];
    [subst w1; apply lookup_insert_eq | |]; rewrite Heq.
  - unfold bind at 1.
    destruct (iter_error response) as [e|] eqn:Hit.
    + exists None; eexists; split; [reflexivity|]. exists e; split; [eauto 8|].
      simpl. now rewrite <- app_assoc.
    + exists (Some tmp_file); eexists; split; [reflexivity|].
      exists response, (candidate_names env k).
      repeat split; auto.
      subst w1; simpl. now rewrite insert_insert_eq.
  - exists None; eexists; split; [reflexivity|]. exists e; split.
    + right; exists response; split; [reflexivity|].
      right; right; right; left. exists n. auto.
    + simpl. rewrite Ht. subst w1; simpl. now rewrite <- app_assoc.
Qed.

(** ** The upload step *)

(** The upload never raises and leaves the files alone; it answers either
    [(None, None)] or the mime type of the path with a true URI. *)
Lemma upload_audio_to_gemini_total env audio_path display_name w :
  exists r tr,
    upload_audio_to_gemini env audio_path display_name w =
      (Ok r, World (fs w) (trace w ++ tr)) /\
    (r = (JNull, JNull) \/
     exists uri, r = (JStr (mime_type_for audio_path), uri) /\
                 PyVal.truthy uri = true).
Proof.
  unfold upload_audio_to_gemini, open_rb. unfold_M.
  destruct (fs w !! audio_path) as [content|]; simpl.
  2:{ eexists _, [_]. split; [reflexivity|]. now left. }
  destruct (upload_post env) as [response|e]; simpl.
  2:{ eexists _, [_; _]. rewrite <- app_assoc. split; [reflexivity|]. now left. }
  destruct (status_code response =? 200); simpl.
  2:{ eexists _, [_; _]. rewrite <- app_assoc. split; [reflexivity|]. now left. }
  destruct (json_body response) as [response_json|e]; simpl.
  2:{ eexists _, [_; _]. rewrite <- app_assoc. split; [reflexivity|]. now left. }
  destruct (PyVal.get response_json "file" (JObj [])) as [file|e]; simpl.
  2:{ eexists _, [_; _]. rewrite <- app_assoc. split; [reflexivity|]. now left. }
  destruct (PyVal.get file "uri" JNull) as [file_uri|e]; simpl.
  2:{ eexists _, [_; _]. rewrite <- app_assoc. split; [reflexivity|]. now left. }
  destruct (PyVal.truthy file_uri) eqn:Huri; simpl.
  - eexists _, [_]. split; [reflexivity|]. right. eauto.
  - eexists _, [_; _]. rewrite <- app_assoc. split; [reflexivity|]. now left.
Qed.

(** A response with another status than 200, or without a nested file URI,
    makes the upload answer [(None, None)] after showing an error. *)
Lemma upload_audio_to_gemini_no_uri env audio_path display_name w content response :
  fs w !! audio_path = Some content ->
  upload_post env = Ok response ->
  status_code response <> 200 \/ nested_file_uri response = None ->
  exists msg,
    upload_audio_to_gemini env audio_path display_name w =
      (Ok (JNull, JNull),
       World (fs w)
             (trace w ++
              [RequestsPostFiles (upload_url env) display_name content
                                 (mime_type_for audio_path);
               StError ("Error uploading audio file: " +:+ msg)])).
Proof.
  intros Hfile Hpost Hbad.
  unfold upload_audio_to_gemini, open_rb. unfold_M.
  rewrite Hfile, Hpost; simpl.
  destruct (status_code response =? 200) eqn:Hs; simpl.
  2:{ eexists. rewrite <- app_assoc. reflexivity. }
  destruct Hbad as [Hne|Hnone]; [apply Z.eqb_eq in Hs; contradiction|].
  unfold nested_file_uri in Hnone.
  destruct (json_body response) as [response_json|e]; simpl.
  2:{ eexists. rewrite <- app_assoc. reflexivity. }
  destruct response_json as [| | | | |members]; simpl;
    try (eexists; rewrite <- app_assoc; reflexivity).
  destruct (PyVal.assoc "file" members) as [file|]; simpl.
  2:{ eexists. rewrite <- app_assoc. reflexivity. }
  destruct file as [| | | | |file]; simpl;
    try (eexists; rewrite <- app_assoc; reflexivity).
  rewrite Hnone; simpl. eexists. rewrite <- app_assoc. reflexivity.
Qed.

(** ** The generate step *)

Lemma first_text_app (ps qs : list json) :
  first_text (ps ++ qs) =
  match first_text ps with Some v => Some v | None => first_text qs end.
Proof.
  induction ps as [|part ps IH]; simpl; [reflexivity|].
  destruct (text_of part); auto.
Qed.

Lemma scan_parts_shaped (ps : list json) :
  forallb is_dict ps = true -> scan_parts ps = Ok (first_text ps).
Proof.
  induction ps as [|part ps IH]; simpl; [reflexivity|].
  intros [Hpart Hps]%andb_true_iff.
  destruct part as [| | | | |members]; try discriminate; simpl.
  destruct (PyVal.assoc "text" members) as [v|] eqn:Hv; simpl; auto.
Qed.

Lemma scan_candidates_shaped (cs : list json) :
  forallb candidate_shaped cs = true ->
  scan_candidates cs = Ok (first_text (flat_map parts_of cs)).
Proof.
  induction cs as [|candidate cs IH]; simpl; [reflexivity|].
  intros [Hc Hcs]%andb_true_iff. rewrite first_text_app.
  destruct candidate as [| | | | |members]; try discriminate; simpl in *.
  destruct (PyVal.assoc "content" members) as [content|]; simpl; [|auto].
  destruct content as [| | | | |content]; try discriminate; simpl.
  destruct (PyVal.assoc "parts" content) as [ps|]; simpl; [|auto].
  destruct ps as [| | | |ps|]; try discriminate; simpl.
  rewrite scan_parts_shaped by exact Hc. simpl.
  destruct (first_text ps); auto.
Qed.

Lemma extract_transcript_shaped (response_json : json) :
  response_shaped response_json = true ->
  extract_transcript response_json =
    Ok (default JNull (first_text_part response_json)).
Proof.
  unfold extract_transcript, first_text_part, candidates_of, response_shaped.
  destruct response_json as [| | | | |members]; try discriminate; simpl.
  destruct (PyVal.assoc "candidates" members) as [cs|]; simpl; [|reflexivity].
  destruct cs as [| | | |cs|]; try discriminate; simpl.
  intros Hcs. now rewrite scan_candidates_shaped.
Qed.

(** The transcription client never raises and leaves the files alone. *)
Lemma generate_transcript_from_audio_total env audio_path display_name user_prompt w :
  exists r tr,
    generate_transcript_from_audio env audio_path display_name user_prompt w =
      (Ok r, World (fs w) (trace w ++ tr)).
Proof.
  unfold generate_transcript_from_audio.
  unfold try_except at 1. unfold bind at 1.
  destruct (upload_audio_to_gemini_total env audio_path display_name w)
    as (r & tr & -> & _).
  cbv beta iota.
  destruct (PyVal.truthy (snd r)); simpl.
  2:{ unfold ret. eauto. }
  unfold_M.
  destruct (generate_post env) as [response|e]; simpl.
  2:{ eexists _, (tr ++ [_; _]). rewrite <- !app_assoc. reflexivity. }
  destruct (status_code response =? 200); simpl.
  2:{ eexists _, (tr ++ [_; _]). rewrite <- !app_assoc. reflexivity. }
  destruct (json_body response) as [response_json|e]; simpl.
  2:{ eexists _, (tr ++ [_; _]). rewrite <- !app_assoc. reflexivity. }
  destruct (extract_transcript response_json) as [v|e]; simpl.
  - eexists _, (tr ++ [_]). rewrite <- !app_assoc. reflexivity.
  - eexists _, (tr ++ [_; _]). rewrite <- !app_assoc. reflexivity.
Qed.

(** ** Staging and cleaning up in [main] *)

(** When staging binds [tmp_path] to a path, that path names a new file,
    and nothing else on local storage has changed. *)
Lemma stage_audio_some env source w p w1 :
  stage_audio env source w = (Ok (Some p), w1) ->
  exists content,
    fs w !! p = None /\
    fs w1 = <[p := content]> (fs w) /\
    (from_url source = true -> PyStr.truthy p = true) /\
    trace w1 = trace w ++ match source with
                          | inl _ => []
                          | inr audio_url => [RequestsGet audio_url true]
                          end.
Proof.
  destruct source as [f|audio_url]; simpl.
  - unfold save_uploaded_file, NamedTemporaryFile, file_write. unfold_M.
    destruct (os_open_error env); [discriminate|].
    destruct (mkstemp_inner _ _ _ _ _) as [tmp_file|] eqn:Hmk; [|discriminate].
    apply mkstemp_inner_fresh in Hmk as [Hfresh _]. simpl.
    destruct (write_error env 0); [discriminate|].
    intros [= <- <-]; simpl.
    eexists. rewrite insert_insert_eq, app_nil_r. repeat split; auto. discriminate.
  - destruct (download_audio_from_url_cases env audio_url w)
      as (r & w' & -> & Hr).
    intros [= -> ->].
    destruct Hr as (response & stem & _ & _ & _ & _ & _ & -> & Hfresh & ->).
    eexists; simpl; repeat split; auto.
    intros _. now apply append_nonempty.
Qed.

(** The [finally] block removes a file that is there. *)
Lemma cleanup_staged p content (files : gmap string (list byte)) tr :
  files !! p = None ->
  cleanup (Some (Some p)) (World (<[p := content]> files) tr) =
    (Ok tt, World files tr).
Proof.
  intros Hfresh. unfold cleanup, os_path_exists, os_unlink. unfold_M.
  rewrite lookup_insert_eq; simpl. rewrite lookup_insert_eq.
  now rewrite delete_insert_id.
Qed.

(** Once [tmp_path] is bound to a path, the handler ends with that file
    removed, whatever the provider answers and whether or not showing the
    result raises. *)
Lemma on_generate_transcript_cleans_up env audio_prompt source display_name w p w1 :
  PyStr.truthy (PyStr.strip audio_prompt) = true ->
  stage_audio env source w = (Ok (Some p), w1) ->
  exists r tr,
    on_generate_transcript env audio_prompt source display_name w =
      (r, World (fs w) (trace w1 ++ tr)).
Proof.
  intros Hprompt Hstage.
  destruct (stage_audio_some _ _ _ _ _ Hstage) as (content & Hfresh & Hfs & Htruthy & _).
  unfold on_generate_transcript. rewrite Hprompt; simpl.
  unfold try_finally. rewrite Hstage.
  unfold transcribe_staged.
  destruct (from_url source && negb (PyStr.truthy p)) eqn:Hfalse.
  { apply andb_true_iff in Hfalse as [Hu Hp]. rewrite Htruthy in Hp by exact Hu.
    discriminate. }
  unfold bind at 1.
  destruct (generate_transcript_from_audio_total env p display_name audio_prompt w1)
    as (transcript & tr & ->).
  rewrite Hfs.
  destruct (PyVal.truthy transcript).
  - unfold st_download_button, st_success, bind, emit; cbn [fs trace].
    destruct (download_button_error env transcript); unfold raise;
      cbv beta iota; cbn [fs trace];
      do 2 eexists; rewrite cleanup_staged by exact Hfresh;
      rewrite <- !app_assoc; reflexivity.
  - unfold st_error, emit; cbv beta iota; cbn [fs trace].
    do 2 eexists. rewrite cleanup_staged by exact Hfresh.
    rewrite <- app_assoc. reflexivity.
Qed.

(** ** The transcript of a generation response *)

(** C2. When the upload has given a URI and the provider answers the
    generate call with status 200 and a body of the interface's shape, the
    transcript returned is the [text] member of the first part that has
    one, candidates taken in order and parts in order within each
    candidate; when no part has a [text] member the result is [None]. *)
Theorem generate_transcript_first_text env audio_path display_name user_prompt
    w mime_type file_uri w1 response response_json :
  upload_audio_to_gemini env audio_path display_name w
    = (Ok (mime_type, file_uri), w1) ->
  PyVal.truthy file_uri = true ->
  generate_post env = Ok response ->
  status_code response = 200 ->
  json_body response = Ok response_json ->
  response_shaped response_json = true ->
  generate_transcript_from_audio env audio_path display_name user_prompt w =
    (Ok (default JNull (first_text_part response_json)),
     World (fs w1)
           (trace w1 ++
            [RequestsPostData (generate_url env) generate_headers
               (generate_body user_prompt mime_type file_uri)])).
Proof.
  intros Hup Huri Hpost Hstatus Hjson Hshape.
  unfold generate_transcript_from_audio.
  unfold try_except at 1. unfold bind at 1. rewrite Hup. cbn [fst snd].
  rewrite Huri. unfold_M.
  rewrite Hpost; simpl. rewrite Hstatus; simpl. rewrite Hjson; simpl.
  now rewrite extract_transcript_shaped.
Qed.

(** The sample provider: the first candidate has no parts, the second has a
    part without text before "hello world". *)
Lemma generate_transcript_first_text_witness :
  generate_transcript_from_audio Sample.env "/tmp/clip.mp3" "clip.mp3"
    "transcribe verbatim" (World {["/tmp/clip.mp3" := [x49; x44; x33]]} []) =
    (Ok (JStr "hello world"),
     World {["/tmp/clip.mp3" := [x49; x44; x33]]}
       [RequestsPostFiles (upload_url Sample.env) "clip.mp3" [x49; x44; x33]
          "audio/mpeg";
        RequestsPostData (generate_url Sample.env) generate_headers
          (generate_body "transcribe verbatim" (JStr "audio/mpeg")
             (JStr "https://generativelanguage.googleapis.com/v1beta/files/abc123"))]).
Proof.
  refine (generate_transcript_first_text Sample.env "/tmp/clip.mp3" "clip.mp3"
           "transcribe verbatim"
           (World {["/tmp/clip.mp3" := [x49; x44; x33]]} [])
           (JStr "audio/mpeg")
           (JStr "https://generativelanguage.googleapis.com/v1beta/files/abc123")
           (World {["/tmp/clip.mp3" := [x49; x44; x33]]}
              [RequestsPostFiles (upload_url Sample.env) "clip.mp3"
                 [x49; x44; x33] "audio/mpeg"])
           (Sample.ok_response Sample.generate_answer) Sample.generate_answer
           _ _ _ _ _ _);
    vm_compute; reflexivity.
Defined.

(** ** Requests that stop at the upload *)

Lemma main_on_transcription env audio_prompt input source display_name :
  transcription_source input = Some (source, display_name) ->
  main env (AudioTranscription audio_prompt input true) =
    on_generate_transcript env audio_prompt source display_name.
Proof.
  destruct input as [[f|]|audio_url]; simpl; try discriminate.
  - now intros [= <- <-].
  - destruct (PyStr.truthy audio_url); [|discriminate]. now intros [= <- <-].
Qed.

(** C4. In a transcription request whose audio has been staged at [p], an
    upload response with a status other than 200, or with a body that has
    no nested file URI, makes the upload answer [(None, None)] with an
    error shown; the transcription client then returns [None] without any
    generate call, the handler shows a second error and ends normally, and
    the temporary file is gone: local storage is as it was before the
    request. *)
Theorem upload_without_uri_ends_request env audio_prompt input source
    display_name files p w1 response :
  PyStr.truthy (PyStr.strip audio_prompt) = true ->
  transcription_source input = Some (source, display_name) ->
  stage_audio env source (World files []) = (Ok (Some p), w1) ->
  upload_post env = Ok response ->
  status_code response <> 200 \/ nested_file_uri response = None ->
  exists content msg,
    let upload_trace :=
      trace w1 ++
      [RequestsPostFiles (upload_url env) display_name content (mime_type_for p);
       StError ("Error uploading audio file: " +:+ msg)] in
    upload_audio_to_gemini env p display_name w1 =
      (Ok (JNull, JNull), World (fs w1) upload_trace) /\
    generate_transcript_from_audio env p display_name audio_prompt w1 =
      (Ok JNull, World (fs w1) upload_trace) /\
    run_main env (AudioTranscription audio_prompt input true) files =
      (Ok tt,
       World files
         (upload_trace ++
          [StError "Failed to generate transcript. Please try again."])) /\
    files !! p = None /\
    Forall (fun ev => is_generate_call ev = false)
      (trace (snd (run_main env (AudioTranscription audio_prompt input true) files))).
Proof.
  intros Hprompt Hsource Hstage Hpost Hbad.
  destruct (stage_audio_some _ _ _ _ _ Hstage)
    as (content & Hfresh & Hfs & Htruthy & Htrace).
  simpl in Hfresh, Hfs, Htrace.
  assert (Hfile : fs w1 !! p = Some content) by (rewrite Hfs; apply lookup_insert_eq).
  destruct (upload_audio_to_gemini_no_uri env p display_name w1 content response
              Hfile Hpost Hbad) as [msg Hup].
  assert (Hgen : generate_transcript_from_audio env p display_name audio_prompt w1 =
    (Ok JNull,
     World (fs w1)
       (trace w1 ++
        [RequestsPostFiles (upload_url env) display_name content (mime_type_for p);
         StError ("Error uploading audio file: " +:+ msg)]))).
  { unfold generate_transcript_from_audio.
    unfold try_except at 1. unfold bind at 1. rewrite Hup. reflexivity. }
  assert (Hrun : run_main env (AudioTranscription audio_prompt input true) files =
    (Ok tt,
     World files
       ((trace w1 ++
         [RequestsPostFiles (upload_url env) display_name content (mime_type_for p);
          StError ("Error uploading audio file: " +:+ msg)]) ++
        [StError "Failed to generate transcript. Please try again."]))).
  { unfold run_main. rewrite (main_on_transcription _ _ _ _ _ Hsource).
    unfold on_generate_transcript. rewrite Hprompt; simpl.
    unfold try_finally. rewrite Hstage.
    unfold transcribe_staged.
    destruct (from_url source && negb (PyStr.truthy p)) eqn:Hfalse.
    { apply andb_true_iff in Hfalse as [Hu Hp]. rewrite Htruthy in Hp by exact Hu.
      discriminate. }
    unfold bind at 1. rewrite Hgen. cbn [PyVal.truthy].
    unfold st_error, emit; cbv beta iota; cbn [fs trace].
    rewrite Hfs, cleanup_staged by exact Hfresh. reflexivity. }
  exists content, msg. cbv zeta.
  repeat split; auto.
  rewrite Hrun; cbn [snd trace]. rewrite Htrace.
  destruct source; repeat (apply Forall_app; split);
    repeat constructor.
Qed.

(** The sample upload refused with status 403: nothing is generated and
    local storage ends empty. *)
Lemma upload_without_uri_ends_request_witness :
  let r := run_main Sample.refused_upload_env
             (AudioTranscription "transcribe verbatim"
                (UploadAudioFile (Some Sample.clip)) true) ∅ in
  fst r = Ok tt /\ fs (snd r) = ∅ /\
  Forall (fun ev => is_generate_call ev = false) (trace (snd r)).
Proof.
  destruct (upload_without_uri_ends_request Sample.refused_upload_env
              "transcribe verbatim" (UploadAudioFile (Some Sample.clip))
              (inl Sample.clip) "clip.mp3" ∅ "/tmp/tmpak3x9_q.mp3"
              (World {["/tmp/tmpak3x9_q.mp3" := [x49; x44; x33]]} [])
              {| status_code := 403; text := "API key not valid";
                 json_body := Raise (Exn "JSONDecodeError"
                                       "Expecting value: line 1 column 1 (char 0)") |})
    as (content & msg & _ & _ & Hrun & _ & Hnone).
  - vm_compute; reflexivity.
  - reflexivity.
  - vm_compute; reflexivity.
  - reflexivity.
  - left. vm_compute. discriminate.
  - cbv zeta. split; [|split]; [| |exact Hnone]; rewrite Hrun; reflexivity.
Defined.

(** ** Blank inputs *)

Lemma rstrip_non_space (c : ascii) (s : string) :
  PyStr.isspace c = false -> PyStr.truthy (PyStr.rstrip (String c s)) = true.
Proof.
  intros Hc; simpl. destruct (PyStr.rstrip s); [now rewrite Hc|reflexivity].
Qed.

(** [s.strip()] is false exactly for the strings of white space only. *)
Lemma truthy_strip (s : string) :
  PyStr.truthy (PyStr.strip s) = negb (PyStr.all_space s).
Proof.
  unfold PyStr.strip. induction s as [|c s IH]; [reflexivity|].
  cbn [PyStr.lstrip PyStr.all_space].
  destruct (PyStr.isspace c) eqn:Hc; [exact IH|].
  now rewrite rstrip_non_space.
Qed.

(** C6. When the button of either mode is pressed while the prompt is empty
    or white space only, or, in the text-processing mode, while the
    transcript is, the run shows the warning for that input and does
    nothing else: no remote call, no error, no change on local storage. *)
Theorem blank_input_warns env ui files msg :
  button_pressed ui = true ->
  blank_warning ui = Some msg ->
  run_main env ui files = (Ok tt, World files [StWarning msg]).
Proof.
  unfold run_main.
  destruct ui as [audio_prompt input pressed|prompt transcript pressed];
    cbn [button_pressed blank_warning].
  - intros [Hdrawn ->]%andb_true_iff.
    apply bool_decide_eq_true in Hdrawn as [[source display_name] Hsource].
    destruct (PyStr.all_space audio_prompt) eqn:Hblank; [|discriminate].
    intros [= <-].
    rewrite (main_on_transcription _ _ _ _ _ Hsource).
    unfold on_generate_transcript. now rewrite truthy_strip, Hblank.
  - intros ->. cbn [main]. unfold on_process. rewrite !truthy_strip.
    destruct (PyStr.all_space prompt); simpl; [now intros [= <-]|].
    destruct (PyStr.all_space transcript); simpl; [now intros [= <-]|discriminate].
Qed.

(** A transcript made of a space, a newline and a tab. *)
Lemma blank_input_warns_witness :
  run_main Sample.env
    (PromptTranscriptProcessing "summarize as JSON"
       (String (PyStr.chr 32) (String (PyStr.chr 10) (String (PyStr.chr 9) EmptyString)))
       true) ∅ =
  (Ok tt, World ∅ [StWarning "Please enter a transcript"]).
Proof.
  apply (blank_input_warns Sample.env
           (PromptTranscriptProcessing "summarize as JSON"
              (String (PyStr.chr 32) (String (PyStr.chr 10) (String (PyStr.chr 9) EmptyString)))
              true) ∅ "Please enter a transcript");
    reflexivity.
Defined.

(** ** Temporary files that stay behind *)

(** C1. A transcription request from a URL whose body breaks off after the
    first chunk: the temporary file has been created and holds that chunk,
    [download_audio_from_url] answers [None], and the [finally] block, which
    sees [tmp_path] bound to [None], raises instead of removing anything.
    The run ends with an exception and the file is still on local
    storage. *)
Theorem broken_stream_leaves_temporary_file :
  run_main Sample.broken_stream_env
    (AudioTranscription "transcribe verbatim" (AudioURLLink Sample.audio_url) true)
    ∅ =
  (Raise (Exn "TypeError"
            "stat: path should be string, bytes, os.PathLike or integer, not NoneType"),
   World {["/tmp/tmpak3x9_q.wav" := [x52; x49]]}
     [RequestsGet Sample.audio_url true;
      StError "Error downloading audio from URL: Connection broken: IncompleteRead";
      StError "Failed to download audio from URL"]).
Proof. vm_compute. reflexivity. Qed.

(** ** The text-processing client *)

(** One call to the SDK, then at most an error message; the files are left
    alone. *)
Lemma process_text_with_gemini_run env prompt transcript w :
  exists r tr,
    process_text_with_gemini env prompt transcript w =
      (Ok r, World (fs w) (trace w ++ tr)) /\
    match genai_client_error env (GEMINI_API_KEY env) with
    | Some e =>
        r = None /\
        tr = [StError ("Error processing with Gemini: " +:+ str_exn e)]
    | None =>
        exists tail,
          tr = GenaiGenerateContent (GEMINI_API_KEY env) "gemini-2.0-flash"
                 (process_contents prompt transcript) process_config :: tail /\
          sent_contents tail = [] /\ sent_configs tail = [] /\
          r = match generate_content env with
              | Ok (Some t) => if PyStr.truthy t then Some t else None
              | _ => None
              end
    end.
Proof.
  unfold process_text_with_gemini. unfold_M.
  destruct (genai_client_error env (GEMINI_API_KEY env)) as [e|]; simpl.
  { eexists _, _. split; [reflexivity|]. auto. }
  destruct (generate_content env) as [[t|]|e]; simpl.
  - eexists _, [_]. split; [reflexivity|]. exists []. auto.
  - eexists _, [_]. split; [reflexivity|]. exists []. auto.
  - eexists _, [_; _]. rewrite <- app_assoc. split; [reflexivity|].
    eexists [_]. auto.
Qed.

Lemma sent_contents_app tr1 tr2 :
  sent_contents (tr1 ++ tr2) = sent_contents tr1 ++ sent_contents tr2.
Proof.
  induction tr1 as [|ev tr1 IH]; simpl; [reflexivity|].
  destruct ev; simpl; now rewrite ?IH.
Qed.

Lemma sent_configs_app tr1 tr2 :
  sent_configs (tr1 ++ tr2) = sent_configs tr1 ++ sent_configs tr2.
Proof.
  induction tr1 as [|ev tr1 IH]; simpl; [reflexivity|].
  destruct ev; simpl; now rewrite ?IH.
Qed.

(** C5, as stated, fails: for the prompt "summarize as JSON" and the
    transcript "the cat sat" the message that goes out is not the one that
    opens with the instruction in the specification's wording. *)
Lemma process_message_differs_from_specified :
  sent_contents
    (trace (snd (process_text_with_gemini Sample.env "summarize as JSON"
                   "the cat sat" (World ∅ []))))
  <> [[specified_message "summarize as JSON" "the cat sat"]].
Proof. vm_compute. discriminate. Qed.

(** C5, amended. Once its SDK client is built, the text-processing client
    makes exactly one call, whose contents are exactly one message, of role
    [user], with one text part: the instruction "Give Proper JSON output as
    mentioned in the format, that will make it easier to parse.", a
    newline, the caller's prompt, a newline, the transcript.  When building
    the SDK client raises, no message is sent. *)
Theorem process_text_sends_one_user_message env prompt transcript w :
  sent_contents (trace (snd (process_text_with_gemini env prompt transcript w))) =
  sent_contents (trace w) ++
  match genai_client_error env (GEMINI_API_KEY env) with
  | Some _ => []
  | None =>
      [[ {| role := "user";
            parts := [Part_from_text
                        ("Give Proper JSON output as mentioned in the format, that will make it easier to parse."
                         +:+ newline +:+ prompt +:+ newline +:+ transcript)] |} ]]
  end.
Proof.
  destruct (process_text_with_gemini_run env prompt transcript w)
    as (r & tr & -> & Hrun).
  cbn [snd trace]. rewrite sent_contents_app.
  destruct (genai_client_error env (GEMINI_API_KEY env)) as [e|].
  - destruct Hrun as [_ ->]. reflexivity.
  - destruct Hrun as (tail & -> & Htail & _). cbn [sent_contents].
    now rewrite Htail.
Qed.

(** C8. Every text-processing request carries one configuration whose
    safety settings all have the no-block threshold [BLOCK_NONE] and name
    each of the four categories hate speech, sexually explicit content,
    harassment and dangerous content once, and no other category.  A run of
    the client makes one such request when its SDK client is built, and
    none when building it raises. *)
Theorem process_text_safety_settings env prompt transcript w :
  exists config,
    sent_configs (trace (snd (process_text_with_gemini env prompt transcript w))) =
      sent_configs (trace w) ++
      match genai_client_error env (GEMINI_API_KEY env) with
      | Some _ => []
      | None => [config]
      end /\
    Forall (fun s => threshold s = BLOCK_NONE) (safety_settings config) /\
    (forall c, In c (map category (safety_settings config)) <->
               In c four_harm_categories) /\
    length (safety_settings config) = 4%nat.
Proof.
  destruct (process_text_with_gemini_run env prompt transcript w)
    as (r & tr & -> & Hrun).
  exists process_config. cbn [snd trace].
  rewrite sent_configs_app.
  repeat split.
  - destruct (genai_client_error env (GEMINI_API_KEY env)) as [e|].
    + destruct Hrun as [_ ->]. reflexivity.
    + destruct Hrun as (tail & -> & _ & Htail & _). cbn [sent_configs].
      now rewrite Htail.
  - repeat constructor.
  - destruct c; simpl; intuition congruence.
  - destruct c; simpl; intuition congruence.
Qed.

(** C10. A response whose text is the empty string is treated like a
    response without text: the client returns [None] in both cases, with
    the same effects; and whatever the provider answers, the result is
    never the empty string. *)
Theorem process_text_empty_is_absent env prompt transcript w :
  fst (process_text_with_gemini (with_response_text env (Some "")) prompt transcript w)
    = Ok None /\
  process_text_with_gemini (with_response_text env (Some "")) prompt transcript w =
    process_text_with_gemini (with_response_text env None) prompt transcript w /\
  fst (process_text_with_gemini env prompt transcript w) <> Ok (Some "").
Proof.
  split; [|split].
  - unfold process_text_with_gemini. unfold_M. simpl.
    destruct (genai_client_error env (GEMINI_API_KEY env)); reflexivity.
  - unfold process_text_with_gemini. unfold_M. simpl.
    destruct (genai_client_error env (GEMINI_API_KEY env)); reflexivity.
  - unfold process_text_with_gemini. unfold_M.
    destruct (genai_client_error env (GEMINI_API_KEY env)); simpl; [discriminate|].
    destruct (generate_content env) as [[t|]|e]; simpl; try discriminate.
    destruct t; simpl; discriminate.
Qed.

(** C7. For every URL, [download_audio_from_url] issues one streamed GET
    and never raises.  It returns a path exactly when nothing failed: the
    path then ends in the fixed suffix [.wav] whatever was downloaded, names
    a file that did not exist before, and that file holds the chunks of the
    body in order.  Otherwise some network or file failure [e] occurred, the
    result is [None] and the error is shown to the user. *)
Theorem download_audio_from_url_spec (env : Env) (audio_url : string) (w : world) :
  exists r w', download_audio_from_url env audio_url w = (Ok r, w') /\
    match r with
    | Some tmp_path =>
        exists response stem,
          requests_get env = Ok response /\
          raise_for_status response = None /\
          os_open_error env = None /\
          (forall n, (n < length (iter_content response))%nat ->
                     write_error env n = None) /\
          iter_error response = None /\
          tmp_path = stem +:+ ".wav" /\
          fs w !! tmp_path = None /\
          w' = World (<[tmp_path := concat (iter_content response)]> (fs w))
                     (trace w ++ [RequestsGet audio_url true])
    | None =>
        exists e, download_failure env (fs w) e /\
          trace w' = trace w ++
            [RequestsGet audio_url true;
             StError ("Error downloading audio from URL: " +:+ str_exn e)]
    end.
Proof. apply download_audio_from_url_cases. Qed.

(** * Further properties of the program *)

(** ** The display name of a URL *)

Lemma contains_char_split_sep (c : ascii) (s x : string) :
  In x (PyStr.split c s) -> contains_char c x = false.
Proof.
  revert x; induction s as [|a s IH]; simpl; intros x.
  - intros [<-|[]]. reflexivity.
  - destruct (Ascii.eqb a c) eqn:Hac.
    + intros [<-|Hin]; [reflexivity|auto].
    + destruct (PyStr.split c s) as [|w ws] eqn:Hs.
      * intros [<-|[]]. simpl. now rewrite Hac.
      * intros [<-|Hin]; [|apply IH; now right].
        simpl. rewrite Hac. apply IH. now left.
Qed.

Lemma contains_char_split_other (c d : ascii) (s x : string) :
  contains_char d s = false ->
  In x (PyStr.split c s) -> contains_char d x = false.
Proof.
  revert x; induction s as [|a s IH]; simpl; intros x Hd.
  - intros [<-|[]]. reflexivity.
  - apply orb_false_iff in Hd as [Had Hd].
    destruct (Ascii.eqb a c).
    + intros [<-|Hin]; [reflexivity|auto].
    + destruct (PyStr.split c s) as [|w ws] eqn:Hs.
      * intros [<-|[]]. simpl. now rewrite Had.
      * intros [<-|Hin]; [|apply IH; auto; now right].
        simpl. rewrite Had. apply IH; auto. now left.
Qed.

Lemma split_nonempty (c : ascii) (s : string) : PyStr.split c s <> [].
Proof.
  destruct s as [|a s]; simpl; [discriminate|].
  destruct (Ascii.eqb a c); [discriminate|].
  destruct (PyStr.split c s); discriminate.
Qed.

Lemma last_In {A} (l : list A) (d : A) : l <> [] -> In (List.last l d) l.
Proof.
  induction l as [|x l IH]; [intros H; now destruct H|]. intros _.
  destruct l as [|y l]; [now left|].
  right. apply IH. discriminate.
Qed.

Lemma hd_In {A} (l : list A) (d : A) : l <> [] -> In (List.hd d l) l.
Proof. destruct l; [intros H; now destruct H|]. intros _. now left. Qed.

(** The display name computed for a URL is never empty and contains neither
    a slash nor a question mark; a URL whose last segment is empty before
    its query gets the name [audio_file]. *)
Theorem display_name_of_url_clean (audio_url : string) :
  PyStr.truthy (display_name_of_url audio_url) = true /\
  contains_char "/"%char (display_name_of_url audio_url) = false /\
  contains_char "?"%char (display_name_of_url audio_url) = false.
Proof.
  unfold display_name_of_url.
  set (last_segment := List.last (PyStr.split "/"%char audio_url) EmptyString).
  set (stem := List.hd EmptyString (PyStr.split "?"%char last_segment)).
  assert (Hlast : contains_char "/"%char last_segment = false).
  { apply (contains_char_split_sep _ audio_url), last_In, split_nonempty. }
  assert (Hin : In stem (PyStr.split "?"%char last_segment)).
  { apply hd_In, split_nonempty. }
  destruct (PyStr.truthy stem) eqn:Hstem.
  - repeat split; [exact Hstem| |].
    + now apply (contains_char_split_other "?"%char _ last_segment).
    + now apply (contains_char_split_sep _ last_segment).
  - repeat split.
Qed.

(** ** The mime type of staged audio *)

Lemma rfind_from_app (c : ascii) (s t : string) (i acc : Z) :
  PyStr.rfind_from c (s +:+ t) i acc =
  PyStr.rfind_from c t (i + Z.of_nat (String.length s)) (PyStr.rfind_from c s i acc).
Proof.
  revert i acc; induction s as [|a s IH]; intros i acc; simpl.
  - now rewrite Z.add_0_r.
  - rewrite IH. f_equal. lia.
Qed.

Lemma length_app_string (s t : string) :
  String.length (s +:+ t) = (String.length s + String.length t)%nat.
Proof. induction s as [|a s IH]; simpl; [reflexivity|now rewrite IH]. Qed.

Lemma substring_app_tail (s t : string) (n : nat) :
  substring (String.length s) n (s +:+ t) = substring 0 n t.
Proof. induction s as [|a s IH]; simpl; auto. Qed.

(** Whatever precedes it, the suffix [.wav] gives the extension [.wav] or,
    when the file name is nothing but dots, no extension. *)
Lemma splitext_wav (stem : string) :
  snd (OsPath.splitext (stem +:+ ".wav")) = ".wav" \/
  snd (OsPath.splitext (stem +:+ ".wav")) = "".
Proof.
  unfold OsPath.splitext.
  destruct (_ && _); [left|now right].
  cbn [snd]. unfold PyStr.slice_from, PyStr.rfind.
  rewrite rfind_from_app. simpl PyStr.rfind_from.
  rewrite Z.add_0_l, Nat2Z.id, length_app_string, substring_app_tail.
  replace (String.length stem + String.length ".wav" - String.length stem)%nat
    with 4%nat by (simpl; lia).
  reflexivity.
Qed.

Lemma mime_type_for_wav (stem : string) :
  mime_type_for (stem +:+ ".wav") = "audio/wav".
Proof.
  unfold mime_type_for, file_extension.
  destruct (splitext_wav stem) as [-> | ->]; reflexivity.
Qed.

(** Audio staged from a URL is always declared as [audio/wav]: the
    temporary file gets the suffix [.wav] whatever the URL ends in, and the
    mime type of the upload is read off that suffix. *)
Theorem url_audio_is_declared_wav env audio_url w tmp_path w1 :
  download_audio_from_url env audio_url w = (Ok (Some tmp_path), w1) ->
  mime_type_for tmp_path = "audio/wav".
Proof.
  intros Hdl.
  destruct (download_audio_from_url_cases env audio_url w) as (r & w' & Heq & Hr).
  rewrite Hdl in Heq. injection Heq as <- <-.
  destruct Hr as (response & stem & _ & _ & _ & _ & _ & -> & _).
  apply mime_type_for_wav.
Qed.

Lemma url_audio_is_declared_wav_witness :
  mime_type_for "/tmp/tmpak3x9_q.wav" = "audio/wav".
Proof.
  refine (url_audio_is_declared_wav Sample.env Sample.audio_url (World ∅ [])
            "/tmp/tmpak3x9_q.wav"
            (World {["/tmp/tmpak3x9_q.wav" := [x52; x49; x46; x46]]}
               [RequestsGet Sample.audio_url true]) _).
  vm_compute. reflexivity.
Defined.

(** ** More on the upload *)

(** A 200 response whose body holds a true file URI makes the upload
    return the mime type of the path with that URI, after one POST that
    carries the file's bytes, the display name and the mime type; nothing
    is shown to the user. *)
Theorem upload_audio_to_gemini_success env audio_path display_name w content
    response uri :
  fs w !! audio_path = Some content ->
  upload_post env = Ok response ->
  status_code response = 200 ->
  nested_file_uri response = Some uri ->
  PyVal.truthy uri = true ->
  upload_audio_to_gemini env audio_path display_name w =
    (Ok (JStr (mime_type_for audio_path), uri),
     World (fs w)
       (trace w ++
        [RequestsPostFiles (upload_url env) display_name content
           (mime_type_for audio_path)])).
Proof.
  intros Hfile Hpost Hstatus Huri Htrue.
  unfold nested_file_uri in Huri.
  unfold upload_audio_to_gemini, open_rb. unfold_M.
  rewrite Hfile, Hpost; simpl. rewrite Hstatus; simpl.
  destruct (json_body response) as [[| | | | |members]|e]; try discriminate; simpl.
  destruct (PyVal.assoc "file" members) as [[| | | | |file]|]; try discriminate; simpl.
  rewrite Huri; simpl. now rewrite Htrue.
Qed.

Lemma upload_audio_to_gemini_success_witness :
  upload_audio_to_gemini Sample.env "/tmp/clip.mp3" "clip.mp3"
    (World {["/tmp/clip.mp3" := [x49; x44; x33]]} []) =
  (Ok (JStr (mime_type_for "/tmp/clip.mp3"),
       JStr "https://generativelanguage.googleapis.com/v1beta/files/abc123"),
   World {["/tmp/clip.mp3" := [x49; x44; x33]]}
     ([] ++ [RequestsPostFiles (upload_url Sample.env) "clip.mp3" [x49; x44; x33]
               (mime_type_for "/tmp/clip.mp3")])).
Proof.
  refine (upload_audio_to_gemini_success Sample.env "/tmp/clip.mp3" "clip.mp3"
            (World {["/tmp/clip.mp3" := [x49; x44; x33]]} []) [x49; x44; x33]
            (Sample.ok_response Sample.upload_answer)
            (JStr "https://generativelanguage.googleapis.com/v1beta/files/abc123")
            _ _ _ _ _); vm_compute; reflexivity.
Defined.

(** A file URI that is present but false in Python's sense (the empty
    string, [null], zero, an empty list or dict) counts as missing: the
    upload answers [(None, None)] and shows "No file URI returned from
    upload". *)
Theorem upload_false_uri_counts_as_missing env audio_path display_name w content
    response uri :
  fs w !! audio_path = Some content ->
  upload_post env = Ok response ->
  status_code response = 200 ->
  nested_file_uri response = Some uri ->
  PyVal.truthy uri = false ->
  upload_audio_to_gemini env audio_path display_name w =
    (Ok (JNull, JNull),
     World (fs w)
       (trace w ++
        [RequestsPostFiles (upload_url env) display_name content
           (mime_type_for audio_path);
         StError "Error uploading audio file: No file URI returned from upload"])).
Proof.
  intros Hfile Hpost Hstatus Huri Hfalse.
  unfold nested_file_uri in Huri.
  unfold upload_audio_to_gemini, open_rb. unfold_M.
  rewrite Hfile, Hpost; simpl. rewrite Hstatus; simpl.
  destruct (json_body response) as [[| | | | |members]|e]; try discriminate; simpl.
  destruct (PyVal.assoc "file" members) as [[| | | | |file]|]; try discriminate; simpl.
  rewrite Huri; simpl. rewrite Hfalse; simpl. now rewrite <- app_assoc.
Qed.

Lemma upload_false_uri_counts_as_missing_witness :
  upload_audio_to_gemini
    (with_upload_response Sample.env
       (Sample.ok_response (JObj [("file", JObj [("uri", JStr "")])])))
    "/tmp/clip.mp3" "clip.mp3"
    (World {["/tmp/clip.mp3" := [x49; x44; x33]]} []) =
  (Ok (JNull, JNull),
   World {["/tmp/clip.mp3" := [x49; x44; x33]]}
     ([] ++
      [RequestsPostFiles (upload_url Sample.env) "clip.mp3" [x49; x44; x33]
         (mime_type_for "/tmp/clip.mp3");
       StError "Error uploading audio file: No file URI returned from upload"])).
Proof.
  refine (upload_false_uri_counts_as_missing
            (with_upload_response Sample.env
               (Sample.ok_response (JObj [("file", JObj [("uri", JStr "")])])))
            "/tmp/clip.mp3" "clip.mp3"
            (World {["/tmp/clip.mp3" := [x49; x44; x33]]} []) [x49; x44; x33]
            (Sample.ok_response (JObj [("file", JObj [("uri", JStr "")])]))
            (JStr "") _ _ _ _ _); vm_compute; reflexivity.
Defined.

(** ** More on the transcription client *)

Lemma calls_app tr1 tr2 : calls (tr1 ++ tr2) = calls tr1 ++ calls tr2.
Proof.
  induction tr1 as [|ev tr1 IH]; simpl; [reflexivity|].
  destruct ev; simpl; now rewrite ?IH.
Qed.

Lemma warnings_app tr1 tr2 : warnings (tr1 ++ tr2) = warnings tr1 ++ warnings tr2.
Proof.
  induction tr1 as [|ev tr1 IH]; simpl; [reflexivity|].
  destruct ev; simpl; now rewrite ?IH.
Qed.

Ltac shape_done := simpl; repeat split; auto; try discriminate.

(** The events of an upload: at most one request, a URI only after it, and
    no warning. *)
Lemma upload_audio_to_gemini_shape env audio_path display_name w :
  exists r tr,
    upload_audio_to_gemini env audio_path display_name w =
      (Ok r, World (fs w) (trace w ++ tr)) /\
    (calls tr = [] \/ calls tr = [CallUpload]) /\
    (PyVal.truthy (snd r) = true -> calls tr = [CallUpload]) /\
    warnings tr = [].
Proof.
  unfold upload_audio_to_gemini, open_rb. unfold_M.
  destruct (fs w !! audio_path) as [content|]; simpl.
  2:{ eexists _, [_]. split; [reflexivity|]. shape_done. }
  destruct (upload_post env) as [response|e]; simpl.
  2:{ eexists _, [_; _]. rewrite <- app_assoc. split; [reflexivity|]. shape_done. }
  destruct (status_code response =? 200); simpl.
  2:{ eexists _, [_; _]. rewrite <- app_assoc. split; [reflexivity|]. shape_done. }
  destruct (json_body response) as [response_json|e]; simpl.
  2:{ eexists _, [_; _]. rewrite <- app_assoc. split; [reflexivity|]. shape_done. }
  destruct (PyVal.get response_json "file" (JObj [])) as [file|e]; simpl.
  2:{ eexists _, [_; _]. rewrite <- app_assoc. split; [reflexivity|]. shape_done. }
  destruct (PyVal.get file "uri" JNull) as [file_uri|e]; simpl.
  2:{ eexists _, [_; _]. rewrite <- app_assoc. split; [reflexivity|]. shape_done. }
  destruct (PyVal.truthy file_uri) eqn:Huri; simpl.
  - eexists _, [_]. split; [reflexivity|]. shape_done.
  - eexists _, [_; _]. rewrite <- app_assoc. split; [reflexivity|]. shape_done.
Qed.

(** The events of a transcription: the upload, then at most one generate
    call; a true result only after both; no warning. *)
Lemma generate_transcript_from_audio_shape env audio_path display_name user_prompt w :
  exists r tr,
    generate_transcript_from_audio env audio_path display_name user_prompt w =
      (Ok r, World (fs w) (trace w ++ tr)) /\
    In (calls tr) [[]; [CallUpload]; [CallUpload; CallGenerate]] /\
    (PyVal.truthy r = true -> calls tr = [CallUpload; CallGenerate]) /\
    warnings tr = [].
Proof.
  unfold generate_transcript_from_audio.
  unfold try_except at 1. unfold bind at 1.
  destruct (upload_audio_to_gemini_shape env audio_path display_name w)
    as (r & tr & -> & Hcalls & Huri & Hwarn).
  cbv beta iota.
  destruct (PyVal.truthy (snd r)) eqn:Htrue; simpl.
  2:{ unfold ret. exists JNull, tr. split; [reflexivity|].
      destruct Hcalls as [Hc | Hc]; rewrite Hc; shape_done. }
  specialize (Huri eq_refl).
  unfold_M.
  destruct (generate_post env) as [response|e]; simpl.
  2:{ eexists _, (tr ++ [_; _]). rewrite <- !app_assoc. split; [reflexivity|].
      rewrite calls_app, warnings_app, Huri, Hwarn. shape_done. }
  destruct (status_code response =? 200); simpl.
  2:{ eexists _, (tr ++ [_; _]). rewrite <- !app_assoc. split; [reflexivity|].
      rewrite calls_app, warnings_app, Huri, Hwarn. shape_done. }
  destruct (json_body response) as [response_json|e]; simpl.
  2:{ eexists _, (tr ++ [_; _]). rewrite <- !app_assoc. split; [reflexivity|].
      rewrite calls_app, warnings_app, Huri, Hwarn. shape_done. }
  destruct (extract_transcript response_json) as [v|e]; simpl.
  - eexists _, (tr ++ [_]). rewrite <- !app_assoc. split; [reflexivity|].
    rewrite calls_app, warnings_app, Huri, Hwarn. shape_done.
  - eexists _, (tr ++ [_; _]). rewrite <- !app_assoc. split; [reflexivity|].
    rewrite calls_app, warnings_app, Huri, Hwarn. shape_done.
Qed.

(** The transcription client never raises, whatever the provider sends
    back, and never touches local storage.  It makes the upload call at
    most once and the generate call at most once and only after the upload;
    a result that is true in Python's sense has needed both calls. *)
Theorem generate_transcript_from_audio_contained env audio_path display_name
    user_prompt w :
  exists r tr,
    generate_transcript_from_audio env audio_path display_name user_prompt w =
      (Ok r, World (fs w) (trace w ++ tr)) /\
    In (calls tr) [[]; [CallUpload]; [CallUpload; CallGenerate]] /\
    (PyVal.truthy r = true -> calls tr = [CallUpload; CallGenerate]).
Proof.
  destruct (generate_transcript_from_audio_shape env audio_path display_name
              user_prompt w) as (r & tr & Heq & Hcalls & Htrue & _).
  eauto.
Qed.

(** After a successful upload, a generate response with another status
    than 200 gives no transcript; the message shown quotes the body of the
    response. *)
Theorem generate_non_200_gives_no_transcript env audio_path display_name
    user_prompt w mime_type file_uri w1 response :
  upload_audio_to_gemini env audio_path display_name w
    = (Ok (mime_type, file_uri), w1) ->
  PyVal.truthy file_uri = true ->
  generate_post env = Ok response ->
  status_code response <> 200 ->
  generate_transcript_from_audio env audio_path display_name user_prompt w =
    (Ok JNull,
     World (fs w1)
       (trace w1 ++
        [RequestsPostData (generate_url env) generate_headers
           (generate_body user_prompt mime_type file_uri);
         StError ("Error generating transcript: Failed to generate content. Response: "
                  +:+ text response)])).
Proof.
  intros Hup Huri Hpost Hstatus.
  unfold generate_transcript_from_audio.
  unfold try_except at 1. unfold bind at 1. rewrite Hup. cbn [fst snd].
  rewrite Huri. unfold_M. rewrite Hpost; simpl.
  apply Z.eqb_neq in Hstatus. rewrite Hstatus; simpl.
  now rewrite <- app_assoc.
Qed.

Lemma generate_non_200_gives_no_transcript_witness :
  fst (generate_transcript_from_audio
         (with_generate_response Sample.env
            {| status_code := 429; text := "quota exceeded";
               json_body := Ok (JObj []) |})
         "/tmp/clip.mp3" "clip.mp3" "transcribe verbatim"
         (World {["/tmp/clip.mp3" := [x49; x44; x33]]} [])) = Ok JNull.
Proof.
  rewrite (generate_non_200_gives_no_transcript
             (with_generate_response Sample.env
                {| status_code := 429; text := "quota exceeded";
                   json_body := Ok (JObj []) |})
             "/tmp/clip.mp3" "clip.mp3" "transcribe verbatim"
             (World {["/tmp/clip.mp3" := [x49; x44; x33]]} [])
             (JStr "audio/mpeg")
             (JStr "https://generativelanguage.googleapis.com/v1beta/files/abc123")
             (World {["/tmp/clip.mp3" := [x49; x44; x33]]}
                [RequestsPostFiles (upload_url Sample.env) "clip.mp3"
                   [x49; x44; x33] "audio/mpeg"])
             {| status_code := 429; text := "quota exceeded";
                json_body := Ok (JObj []) |}).
  - reflexivity.
  - vm_compute; reflexivity.
  - reflexivity.
  - reflexivity.
  - vm_compute. discriminate.
Defined.

(** The scan stops at the first part with text: what follows the
    candidates that hold it is never looked at, so that ill-formed later
    candidates do no harm. *)
Theorem scan_stops_at_first_text (members : list (string * json))
    (cs later : list json) (v : json) :
  PyVal.assoc "candidates" members = Some (JArr (cs ++ later)) ->
  forallb candidate_shaped cs = true ->
  first_text (flat_map parts_of cs) = Some v ->
  extract_transcript (JObj members) = Ok v.
Proof.
  intros Hcands Hshape Hfirst.
  unfold extract_transcript; simpl. rewrite Hcands; simpl. clear Hcands.
  enough (H : scan_candidates (cs ++ later) = Ok (Some v)) by now rewrite H.
  revert Hshape Hfirst.
  induction cs as [|candidate cs IH]; simpl; [discriminate|].
  intros [Hc Hcs]%andb_true_iff. rewrite first_text_app.
  destruct candidate as [| | | | |cmembers]; try discriminate; simpl in *.
  destruct (PyVal.assoc "content" cmembers) as [content|]; simpl; [|auto].
  destruct content as [| | | | |content]; try discriminate; simpl.
  destruct (PyVal.assoc "parts" content) as [ps|]; simpl; [|auto].
  destruct ps as [| | | |ps|]; try discriminate; simpl.
  rewrite scan_parts_shaped by exact Hc. simpl.
  destruct (first_text ps); [now intros [= ->]|auto].
Qed.

Lemma scan_stops_at_first_text_witness :
  extract_transcript
    (JObj [("candidates",
            JArr ([JObj [("content", JObj [("parts", JArr [JObj [("text", JStr "hi")]])])]]
                  ++ [JNull; JNum 7]))]) = Ok (JStr "hi").
Proof.
  apply (scan_stops_at_first_text _
           [JObj [("content", JObj [("parts", JArr [JObj [("text", JStr "hi")]])])]]
           [JNull; JNum 7] (JStr "hi")); reflexivity.
Defined.

(** ** Transcription requests in [main] *)

(** What a request does once the audio is staged at [p] and the
    transcription client has answered. *)
Lemma run_main_staged env audio_prompt input source display_name files p w1
    transcript w2 :
  PyStr.truthy (PyStr.strip audio_prompt) = true ->
  transcription_source input = Some (source, display_name) ->
  stage_audio env source (World files []) = (Ok (Some p), w1) ->
  generate_transcript_from_audio env p display_name audio_prompt w1
    = (Ok transcript, w2) ->
  run_main env (AudioTranscription audio_prompt input true) files =
    if PyVal.truthy transcript
    then match download_button_error env transcript with
         | Some e =>
             (Raise e,
              World files
                (trace w2 ++ [StSuccess "Transcript generated successfully!";
                              StTextArea "Transcript" transcript]))
         | None =>
             (Ok tt,
              World files
                (trace w2 ++ [StSuccess "Transcript generated successfully!";
                              StTextArea "Transcript" transcript;
                              StDownloadButton "Download Transcript" transcript]))
         end
    else (Ok tt,
          World files
            (trace w2 ++ [StError "Failed to generate transcript. Please try again."])).
Proof.
  intros Hprompt Hsource Hstage Hgen.
  destruct (stage_audio_some _ _ _ _ _ Hstage)
    as (content & Hfresh & Hfs & Htruthy & _).
  simpl in Hfresh, Hfs.
  destruct (generate_transcript_from_audio_total env p display_name audio_prompt w1)
    as (r & tr & Heq).
  rewrite Hgen in Heq. injection Heq as <- ->.
  unfold run_main. rewrite (main_on_transcription _ _ _ _ _ Hsource).
  unfold on_generate_transcript. rewrite Hprompt; simpl.
  unfold try_finally. rewrite Hstage.
  unfold transcribe_staged.
  destruct (from_url source && negb (PyStr.truthy p)) eqn:Hfalse.
  { apply andb_true_iff in Hfalse as [Hu Hp]. rewrite Htruthy in Hp by exact Hu.
    discriminate. }
  unfold bind at 1. rewrite Hgen. cbn [trace]. rewrite Hfs.
  destruct (PyVal.truthy transcript).
  - unfold st_download_button, st_success, bind, emit; cbn [fs trace].
    destruct (download_button_error env transcript); unfold raise;
      cbv beta iota; cbn [fs trace];
      rewrite cleanup_staged by exact Hfresh; rewrite <- !app_assoc; reflexivity.
  - unfold st_error, emit; cbv beta iota; cbn [fs trace].
    now rewrite cleanup_staged by exact Hfresh.
Qed.

(** A transcript that is true in Python's sense is announced, shown in the
    text area and offered for download, in that order, and local storage
    ends as it was before the request. *)
Theorem transcription_shows_transcript env audio_prompt input source
    display_name files p w1 transcript w2 :
  PyStr.truthy (PyStr.strip audio_prompt) = true ->
  transcription_source input = Some (source, display_name) ->
  stage_audio env source (World files []) = (Ok (Some p), w1) ->
  generate_transcript_from_audio env p display_name audio_prompt w1
    = (Ok transcript, w2) ->
  PyVal.truthy transcript = true ->
  download_button_error env transcript = None ->
  run_main env (AudioTranscription audio_prompt input true) files =
    (Ok tt,
     World files
       (trace w2 ++ [StSuccess "Transcript generated successfully!";
                     StTextArea "Transcript" transcript;
                     StDownloadButton "Download Transcript" transcript])).
Proof.
  intros Hprompt Hsource Hstage Hgen Htrue Hbutton.
  rewrite (run_main_staged _ _ _ _ _ _ _ _ _ _ Hprompt Hsource Hstage Hgen).
  now rewrite Htrue, Hbutton.
Qed.

(** A transcript that is false in Python's sense, such as the empty string
    a provider may return as the text of its first part, is reported as a
    failure like a missing one. *)
Theorem false_transcript_is_reported_as_failure env audio_prompt input source
    display_name files p w1 transcript w2 :
  PyStr.truthy (PyStr.strip audio_prompt) = true ->
  transcription_source input = Some (source, display_name) ->
  stage_audio env source (World files []) = (Ok (Some p), w1) ->
  generate_transcript_from_audio env p display_name audio_prompt w1
    = (Ok transcript, w2) ->
  PyVal.truthy transcript = false ->
  run_main env (AudioTranscription audio_prompt input true) files =
    (Ok tt,
     World files
       (trace w2 ++ [StError "Failed to generate transcript. Please try again."])).
Proof.
  intros Hprompt Hsource Hstage Hgen Hfalse.
  rewrite (run_main_staged _ _ _ _ _ _ _ _ _ _ Hprompt Hsource Hstage Hgen).
  now rewrite Hfalse.
Qed.

(** When showing the result raises, the exception leaves [main], but the
    [finally] block has run: the temporary file is removed all the same. *)
Theorem cleanup_runs_when_display_raises env audio_prompt input source
    display_name files p w1 transcript w2 e :
  PyStr.truthy (PyStr.strip audio_prompt) = true ->
  transcription_source input = Some (source, display_name) ->
  stage_audio env source (World files []) = (Ok (Some p), w1) ->
  generate_transcript_from_audio env p display_name audio_prompt w1
    = (Ok transcript, w2) ->
  PyVal.truthy transcript = true ->
  download_button_error env transcript = Some e ->
  run_main env (AudioTranscription audio_prompt input true) files =
    (Raise e,
     World files
       (trace w2 ++ [StSuccess "Transcript generated successfully!";
                     StTextArea "Transcript" transcript])).
Proof.
  intros Hprompt Hsource Hstage Hgen Htrue Hbutton.
  rewrite (run_main_staged _ _ _ _ _ _ _ _ _ _ Hprompt Hsource Hstage Hgen).
  now rewrite Htrue, Hbutton.
Qed.

Lemma transcription_shows_transcript_witness :
  let r := run_main Sample.env
             (AudioTranscription "transcribe verbatim"
                (UploadAudioFile (Some Sample.clip)) true) ∅ in
  fst r = Ok tt /\ fs (snd r) = ∅ /\
  List.last (trace (snd r)) (StWarning "") =
    StDownloadButton "Download Transcript" (JStr "hello world").
Proof.
  cbv zeta.
  rewrite (transcription_shows_transcript Sample.env "transcribe verbatim"
             (UploadAudioFile (Some Sample.clip)) (inl Sample.clip) "clip.mp3" ∅
             "/tmp/tmpak3x9_q.mp3"
             (World {["/tmp/tmpak3x9_q.mp3" := [x49; x44; x33]]} [])
             (JStr "hello world")
             (World {["/tmp/tmpak3x9_q.mp3" := [x49; x44; x33]]}
                [RequestsPostFiles (upload_url Sample.env) "clip.mp3"
                   [x49; x44; x33] "audio/mpeg";
                 RequestsPostData (generate_url Sample.env) generate_headers
                   (generate_body "transcribe verbatim" (JStr "audio/mpeg")
                      (JStr "https://generativelanguage.googleapis.com/v1beta/files/abc123"))])).
  - repeat split.
  - vm_compute; reflexivity.
  - reflexivity.
  - vm_compute; reflexivity.
  - vm_compute; reflexivity.
  - reflexivity.
  - reflexivity.
Defined.

Lemma false_transcript_is_reported_as_failure_witness :
  let env := with_generate_response Sample.env
               (Sample.ok_response
                  (JObj [("candidates",
                          JArr [JObj [("content",
                                       JObj [("parts", JArr [JObj [("text", JStr "")]])])]])])) in
  let r := run_main env
             (AudioTranscription "transcribe verbatim"
                (UploadAudioFile (Some Sample.clip)) true) ∅ in
  fst r = Ok tt /\ fs (snd r) = ∅ /\
  List.last (trace (snd r)) (StWarning "") =
    StError "Failed to generate transcript. Please try again.".
Proof.
  cbv zeta.
  rewrite (false_transcript_is_reported_as_failure
             (with_generate_response Sample.env
                (Sample.ok_response
                   (JObj [("candidates",
                           JArr [JObj [("content",
                                        JObj [("parts", JArr [JObj [("text", JStr "")]])])]])])))
             "transcribe verbatim"
             (UploadAudioFile (Some Sample.clip)) (inl Sample.clip) "clip.mp3" ∅
             "/tmp/tmpak3x9_q.mp3"
             (World {["/tmp/tmpak3x9_q.mp3" := [x49; x44; x33]]} [])
             (JStr "")
             (World {["/tmp/tmpak3x9_q.mp3" := [x49; x44; x33]]}
                [RequestsPostFiles (upload_url Sample.env) "clip.mp3"
                   [x49; x44; x33] "audio/mpeg";
                 RequestsPostData (generate_url Sample.env) generate_headers
                   (generate_body "transcribe verbatim" (JStr "audio/mpeg")
                      (JStr "https://generativelanguage.googleapis.com/v1beta/files/abc123"))])).
  - repeat split.
  - vm_compute; reflexivity.
  - reflexivity.
  - vm_compute; reflexivity.
  - vm_compute; reflexivity.
  - reflexivity.
Defined.

Lemma cleanup_runs_when_display_raises_witness :
  let env := with_download_button_error Sample.env
               (Exn "StreamlitAPIException" "Invalid binary data format") in
  let r := run_main env
             (AudioTranscription "transcribe verbatim"
                (UploadAudioFile (Some Sample.clip)) true) ∅ in
  fst r = Raise (Exn "StreamlitAPIException" "Invalid binary data format") /\
  fs (snd r) = ∅.
Proof.
  cbv zeta.
  rewrite (cleanup_runs_when_display_raises
             (with_download_button_error Sample.env
                (Exn "StreamlitAPIException" "Invalid binary data format"))
             "transcribe verbatim"
             (UploadAudioFile (Some Sample.clip)) (inl Sample.clip) "clip.mp3" ∅
             "/tmp/tmpak3x9_q.mp3"
             (World {["/tmp/tmpak3x9_q.mp3" := [x49; x44; x33]]} [])
             (JStr "hello world")
             (World {["/tmp/tmpak3x9_q.mp3" := [x49; x44; x33]]}
                [RequestsPostFiles (upload_url Sample.env) "clip.mp3"
                   [x49; x44; x33] "audio/mpeg";
                 RequestsPostData (generate_url Sample.env) generate_headers
                   (generate_body "transcribe verbatim" (JStr "audio/mpeg")
                      (JStr "https://generativelanguage.googleapis.com/v1beta/files/abc123"))])
             (Exn "StreamlitAPIException" "Invalid binary data format")).
  - repeat split.
  - vm_compute; reflexivity.
  - reflexivity.
  - vm_compute; reflexivity.
  - vm_compute; reflexivity.
  - reflexivity.
  - reflexivity.
Defined.

(** ** Requests whose staging fails *)

(** When staging a URL gives no path, the handler shows the failure and
    then the [finally] block raises the [TypeError] of
    [os.path.exists(None)]. *)
Lemma run_main_failed_download env audio_prompt audio_url files w1 :
  PyStr.truthy (PyStr.strip audio_prompt) = true ->
  PyStr.truthy audio_url = true ->
  download_audio_from_url env audio_url (World files []) = (Ok None, w1) ->
  run_main env (AudioTranscription audio_prompt (AudioURLLink audio_url) true) files =
    (Raise exists_none_error,
     World (fs w1) (trace w1 ++ [StError "Failed to download audio from URL"])).
Proof.
  intros Hprompt Hurl Hdl.
  unfold run_main. cbn [main]. rewrite Hurl.
  unfold on_generate_transcript. rewrite Hprompt; cbn [negb].
  unfold try_finally. cbn [stage_audio]. rewrite Hdl.
  reflexivity.
Qed.

(** A download that fails, for whatever reason, ends the request with an
    uncaught [TypeError] after the two error messages; the GET is the only
    remote call of the run. *)
Theorem failed_download_ends_in_type_error env audio_prompt audio_url files w1 :
  PyStr.truthy (PyStr.strip audio_prompt) = true ->
  PyStr.truthy audio_url = true ->
  download_audio_from_url env audio_url (World files []) = (Ok None, w1) ->
  exists e,
    run_main env (AudioTranscription audio_prompt (AudioURLLink audio_url) true) files =
      (Raise exists_none_error,
       World (fs w1)
         [RequestsGet audio_url true;
          StError ("Error downloading audio from URL: " +:+ str_exn e);
          StError "Failed to download audio from URL"]).
Proof.
  intros Hprompt Hurl Hdl.
  rewrite (run_main_failed_download _ _ _ _ _ Hprompt Hurl Hdl).
  destruct (download_audio_from_url_cases env audio_url (World files []))
    as (r & w' & Heq & Hr).
  rewrite Hdl in Heq. injection Heq as <- <-.
  destruct Hr as (e & _ & ->). exists e. reflexivity.
Qed.

Lemma failed_download_ends_in_type_error_witness :
  exists e,
    run_main Sample.broken_stream_env
      (AudioTranscription "transcribe verbatim" (AudioURLLink Sample.audio_url) true) ∅ =
      (Raise exists_none_error,
       World (fs (World {["/tmp/tmpak3x9_q.wav" := [x52; x49]]}
                    [RequestsGet Sample.audio_url true;
                     StError "Error downloading audio from URL: Connection broken: IncompleteRead"]))
         [RequestsGet Sample.audio_url true;
          StError ("Error downloading audio from URL: " +:+ str_exn e);
          StError "Failed to download audio from URL"]).
Proof.
  refine (failed_download_ends_in_type_error Sample.broken_stream_env
            "transcribe verbatim" Sample.audio_url ∅
            (World {["/tmp/tmpak3x9_q.wav" := [x52; x49]]}
               [RequestsGet Sample.audio_url true;
                StError "Error downloading audio from URL: Connection broken: IncompleteRead"])
            _ _ _); vm_compute; reflexivity.
Defined.

(** When the stream of the body breaks after the temporary file has been
    created, [download_audio_from_url] answers [None] and the file, holding
    the chunks received so far, stays on local storage. *)
Theorem broken_download_keeps_partial_file env audio_url w response p e :
  requests_get env = Ok response ->
  raise_for_status response = None ->
  os_open_error env = None ->
  mkstemp_inner (candidate_names env) ".wav" (fs w) 0 (TMP_MAX env) = Some p ->
  (forall n, (n < length (iter_content response))%nat -> write_error env n = None) ->
  iter_error response = Some e ->
  download_audio_from_url env audio_url w =
    (Ok None,
     World (<[p := concat (iter_content response)]> (fs w))
       (trace w ++
        [RequestsGet audio_url true;
         StError ("Error downloading audio from URL: " +:+ str_exn e)])).
Proof.
  intros Hget Hstatus Hopen Hmk Hwrites Hiter.
  unfold download_audio_from_url.
  unfold try_except at 1. unfold bind at 1. unfold emit at 1. cbv beta iota.
  unfold bind at 1. unfold lift at 1. rewrite Hget.
  unfold bind at 1. rewrite Hstatus.
  unfold ret at 1. unfold bind at 1. unfold NamedTemporaryFile at 1.
  rewrite Hopen. cbn [fs trace]. rewrite Hmk.
  set (w1 := World (<[p := []]> (fs w)) (trace w ++ [RequestsGet audio_url true])).
  unfold bind at 1.
  destruct (write_chunks_spec env p (iter_content response) 0 w1 [])
    as [[_ Heq]|(e' & n & w2 & Hn & He & _)];
    [subst w1; apply lookup_insert_eq | |].
  - rewrite Heq. unfold bind at 1. rewrite Hiter. unfold raise, st_error, bind, emit, ret.
    subst w1; cbn [fs trace]. now rewrite insert_insert_eq, <- app_assoc.
  - rewrite Hwrites in He by exact Hn. discriminate.
Qed.

Lemma broken_download_keeps_partial_file_witness :
  download_audio_from_url Sample.broken_stream_env Sample.audio_url (World ∅ []) =
    (Ok None,
     World (<["/tmp/tmpak3x9_q.wav" := concat [[x52; x49]]]> ∅)
       ([] ++
        [RequestsGet Sample.audio_url true;
         StError ("Error downloading audio from URL: " +:+
                  str_exn (Exn "ChunkedEncodingError" "Connection broken: IncompleteRead"))])).
Proof.
  refine (broken_download_keeps_partial_file Sample.broken_stream_env
            Sample.audio_url (World ∅ [])
            {| raise_for_status := None; iter_content := [[x52; x49]];
               iter_error := Some (Exn "ChunkedEncodingError"
                                       "Connection broken: IncompleteRead") |}
            "/tmp/tmpak3x9_q.wav"
            (Exn "ChunkedEncodingError" "Connection broken: IncompleteRead")
            _ _ _ _ _ _); vm_compute; reflexivity.
Defined.

(** In the upload branch a write to the temporary file that fails is not
    caught: the exception leaves [main], nothing is shown, and since
    [tmp_path] was never assigned the [finally] block removes nothing, so
    the empty file stays. *)
Theorem failed_write_of_upload_escapes env audio_prompt f files p e :
  PyStr.truthy (PyStr.strip audio_prompt) = true ->
  os_open_error env = None ->
  mkstemp_inner (candidate_names env) (snd (OsPath.splitext (name f))) files 0
    (TMP_MAX env) = Some p ->
  write_error env 0 = Some e ->
  run_main env (AudioTranscription audio_prompt (UploadAudioFile (Some f)) true) files =
    (Raise e, World (<[p := []]> files) []).
Proof.
  intros Hprompt Hopen Hmk Hwrite.
  unfold run_main. cbn [main].
  unfold on_generate_transcript. rewrite Hprompt; cbn [negb].
  unfold try_finally. cbn [stage_audio].
  unfold save_uploaded_file, bind at 1, NamedTemporaryFile.
  rewrite Hopen. cbn [fs trace]. rewrite Hmk.
  unfold bind, file_write. now rewrite Hwrite.
Qed.

Lemma failed_write_of_upload_escapes_witness :
  run_main (with_write_error Sample.env (Exn "OSError" "[Errno 28] No space left on device"))
    (AudioTranscription "transcribe verbatim" (UploadAudioFile (Some Sample.clip)) true) ∅ =
    (Raise (Exn "OSError" "[Errno 28] No space left on device"),
     World (<["/tmp/tmpak3x9_q.mp3" := []]> ∅) []).
Proof.
  refine (failed_write_of_upload_escapes
            (with_write_error Sample.env (Exn "OSError" "[Errno 28] No space left on device"))
            "transcribe verbatim" Sample.clip ∅ "/tmp/tmpak3x9_q.mp3"
            (Exn "OSError" "[Errno 28] No space left on device") _ _ _ _);
    vm_compute; reflexivity.
Defined.

(** ** The text-processing mode in [main] *)

(** When the SDK client is built and the provider returns a text, that
    text is announced, shown and offered for download exactly as received,
    after the single call; local storage is not touched. *)
Theorem processing_shows_result env prompt transcript files t :
  PyStr.all_space prompt = false ->
  PyStr.all_space transcript = false ->
  genai_client_error env (GEMINI_API_KEY env) = None ->
  generate_content env = Ok (Some t) ->
  PyStr.truthy t = true ->
  download_button_error env (JStr t) = None ->
  run_main env (PromptTranscriptProcessing prompt transcript true) files =
    (Ok tt,
     World files
       [GenaiGenerateContent (GEMINI_API_KEY env) "gemini-2.0-flash"
          (process_contents prompt transcript) process_config;
        StSuccess "Processing completed successfully!";
        StTextArea "Result" (JStr t);
        StDownloadButton "Download Result" (JStr t)]).
Proof.
  intros Hp Ht Hclient Hgen Htrue Hbutton.
  unfold run_main. cbn [main]. unfold on_process.
  rewrite !truthy_strip, Hp, Ht; cbn [negb].
  unfold process_text_with_gemini, st_download_button. unfold_M.
  rewrite Hclient, Hgen; simpl. rewrite Htrue, Hbutton. reflexivity.
Qed.

Lemma processing_shows_result_witness :
  let env := with_response_text Sample.env (Some "{summary: a cat sat}") in
  run_main env (PromptTranscriptProcessing "summarize as JSON" "the cat sat" true) ∅ =
    (Ok tt,
     World ∅
       [GenaiGenerateContent (GEMINI_API_KEY env) "gemini-2.0-flash"
          (process_contents "summarize as JSON" "the cat sat") process_config;
        StSuccess "Processing completed successfully!";
        StTextArea "Result" (JStr "{summary: a cat sat}");
        StDownloadButton "Download Result" (JStr "{summary: a cat sat}")]).
Proof.
  cbv zeta.
  apply (processing_shows_result
           (with_response_text Sample.env (Some "{summary: a cat sat}"))
           "summarize as JSON" "the cat sat" ∅ "{summary: a cat sat}");
    reflexivity.
Defined.

(** When the SDK client is built and the call raises, the exception is
    shown with its message, followed by the failure notice; [main] itself
    ends normally. *)
Theorem processing_failure_is_reported env prompt transcript files e :
  PyStr.all_space prompt = false ->
  PyStr.all_space transcript = false ->
  genai_client_error env (GEMINI_API_KEY env) = None ->
  generate_content env = Raise e ->
  run_main env (PromptTranscriptProcessing prompt transcript true) files =
    (Ok tt,
     World files
       [GenaiGenerateContent (GEMINI_API_KEY env) "gemini-2.0-flash"
          (process_contents prompt transcript) process_config;
        StError ("Error processing with Gemini: " +:+ str_exn e);
        StError "Failed to process. Please try again."]).
Proof.
  intros Hp Ht Hclient Hgen.
  unfold run_main. cbn [main]. unfold on_process.
  rewrite !truthy_strip, Hp, Ht; cbn [negb].
  unfold process_text_with_gemini. unfold_M.
  rewrite Hclient, Hgen. reflexivity.
Qed.

Lemma processing_failure_is_reported_witness :
  let env := with_sdk_error Sample.env (Exn "ClientError" "401 UNAUTHENTICATED") in
  run_main env (PromptTranscriptProcessing "summarize as JSON" "the cat sat" true) ∅ =
    (Ok tt,
     World ∅
       [GenaiGenerateContent (GEMINI_API_KEY env) "gemini-2.0-flash"
          (process_contents "summarize as JSON" "the cat sat") process_config;
        StError ("Error processing with Gemini: " +:+
                 str_exn (Exn "ClientError" "401 UNAUTHENTICATED"));
        StError "Failed to process. Please try again."]).
Proof.
  cbv zeta.
  apply (processing_failure_is_reported
           (with_sdk_error Sample.env (Exn "ClientError" "401 UNAUTHENTICATED"))
           "summarize as JSON" "the cat sat" ∅
           (Exn "ClientError" "401 UNAUTHENTICATED"));
    reflexivity.
Defined.

(** When building the SDK client raises, no call is made: the exception is
    caught inside the client function and shown with its message, followed
    by the failure notice; [main] ends normally. *)
Theorem client_failure_is_reported env prompt transcript files e :
  PyStr.all_space prompt = false ->
  PyStr.all_space transcript = false ->
  genai_client_error env (GEMINI_API_KEY env) = Some e ->
  run_main env (PromptTranscriptProcessing prompt transcript true) files =
    (Ok tt,
     World files
       [StError ("Error processing with Gemini: " +:+ str_exn e);
        StError "Failed to process. Please try again."]).
Proof.
  intros Hp Ht Hclient.
  unfold run_main. cbn [main]. unfold on_process.
  rewrite !truthy_strip, Hp, Ht; cbn [negb].
  unfold process_text_with_gemini. unfold_M.
  rewrite Hclient. reflexivity.
Qed.

Lemma client_failure_is_reported_witness :
  let env := with_client_error Sample.env
               (Exn "ValueError" "Missing key inputs argument!") in
  run_main env (PromptTranscriptProcessing "summarize as JSON" "the cat sat" true) ∅ =
    (Ok tt,
     World ∅
       [StError ("Error processing with Gemini: " +:+
                 str_exn (Exn "ValueError" "Missing key inputs argument!"));
        StError "Failed to process. Please try again."]).
Proof.
  cbv zeta.
  apply (client_failure_is_reported
           (with_client_error Sample.env
              (Exn "ValueError" "Missing key inputs argument!"))
           "summarize as JSON" "the cat sat" ∅
           (Exn "ValueError" "Missing key inputs argument!"));
    reflexivity.
Defined.

(** ** The remote calls and the warnings of a run *)

Lemma cleanup_trace tmp_path w : trace (snd (cleanup tmp_path w)) = trace w.
Proof.
  destruct tmp_path as [[p|]|]; unfold cleanup, os_path_exists, os_unlink;
    unfold_M; try reflexivity.
  destruct (fs w !! p) eqn:Hp; simpl; rewrite ?Hp; reflexivity.
Qed.

Lemma stage_audio_calls env source w :
  exists tr,
    trace (snd (stage_audio env source w)) = trace w ++ tr /\
    calls tr = match source with inl _ => [] | inr _ => [CallGet] end /\
    warnings tr = [].
Proof.
  destruct source as [f|audio_url]; cbn [stage_audio from_url].
  - exists []. rewrite app_nil_r. split; [|split; reflexivity].
    unfold save_uploaded_file, NamedTemporaryFile, file_write. unfold_M.
    destruct (os_open_error env); [reflexivity|].
    destruct (mkstemp_inner _ _ _ _ _); [|reflexivity]. simpl.
    destruct (write_error env 0); reflexivity.
  - destruct (download_audio_from_url_cases env audio_url w) as (r & w' & -> & Hr).
    cbn [fst snd]. destruct r as [p|].
    + destruct Hr as (response & stem & _ & _ & _ & _ & _ & _ & _ & ->).
      exists [RequestsGet audio_url true]. repeat split; eauto.
    + destruct Hr as (e & _ & ->).
      eexists [_; _]. repeat split; eauto.
Qed.

Lemma transcribe_staged_calls env url_source display_name audio_prompt tmp_path w :
  exists tr,
    trace (snd (transcribe_staged env url_source display_name audio_prompt tmp_path w))
      = trace w ++ tr /\
    In (calls tr) [[]; [CallUpload]; [CallUpload; CallGenerate]] /\
    warnings tr = [].
Proof.
  unfold transcribe_staged.
  destruct tmp_path as [p|].
  2:{ exists [StError "Failed to download audio from URL"]. simpl. auto. }
  destruct (url_source && negb (PyStr.truthy p)).
  { exists [StError "Failed to download audio from URL"]. simpl. auto. }
  unfold bind at 1.
  destruct (generate_transcript_from_audio_shape env p display_name audio_prompt w)
    as (r & tr & -> & Hcalls & _ & Hwarn).
  destruct (PyVal.truthy r).
  - unfold st_download_button, st_success, bind, emit; cbn [fs trace].
    destruct (download_button_error env r); unfold raise; cbn [snd fs trace];
      rewrite <- !app_assoc; eexists; (split; [reflexivity|]);
      rewrite calls_app, warnings_app, app_nil_r, Hwarn;
      (split; [exact Hcalls|reflexivity]).
  - unfold st_error, emit; cbn [snd fs trace].
    rewrite <- !app_assoc. eexists; split; [reflexivity|].
    rewrite calls_app, warnings_app, app_nil_r, Hwarn. split; [exact Hcalls|reflexivity].
Qed.

Lemma on_generate_transcript_calls env audio_prompt source display_name w :
  exists tr,
    trace (snd (on_generate_transcript env audio_prompt source display_name w))
      = trace w ++ tr /\
    In (calls tr)
       match source with
       | inl _ => [[]; [CallUpload]; [CallUpload; CallGenerate]]
       | inr _ => [[]; [CallGet]; [CallGet; CallUpload];
                   [CallGet; CallUpload; CallGenerate]]
       end /\
    warnings tr =
      if PyStr.all_space audio_prompt
      then ["Please enter a transcription prompt"] else [].
Proof.
  unfold on_generate_transcript. rewrite truthy_strip, negb_involutive.
  destruct (PyStr.all_space audio_prompt).
  { exists [StWarning "Please enter a transcription prompt"].
    split; [reflexivity|]. destruct source; simpl; auto. }
  unfold try_finally.
  destruct (stage_audio_calls env source w) as (tr1 & Htr1 & Hc1 & Hw1).
  destruct (stage_audio env source w) as [[x|e] w1]; cbn [snd] in Htr1.
  - destruct (transcribe_staged_calls env (from_url source) display_name
                audio_prompt x w1) as (tr2 & Htr2 & Hc2 & Hw2).
    destruct (transcribe_staged env (from_url source) display_name audio_prompt x w1)
      as [r w2]; cbn [snd] in Htr2.
    pose proof (cleanup_trace (Some x) w2) as Hfin.
    destruct (cleanup (Some x) w2) as [[u|e'] w3]; cbn [snd] in *;
      rewrite Hfin, Htr2, Htr1, <- app_assoc; eexists; (split; [reflexivity|]);
      rewrite calls_app, warnings_app, Hc1, Hw1, Hw2;
      (split; [|reflexivity]);
      destruct source; simpl in *; intuition congruence.
  - pose proof (cleanup_trace None w1) as Hfin.
    destruct (cleanup None w1) as [[u|e'] w2]; cbn [snd] in *;
      rewrite Hfin, Htr1; eexists; (split; [reflexivity|]);
      rewrite Hc1, Hw1; (split; [|reflexivity]);
      destruct source; simpl; auto.
Qed.

Lemma on_process_calls env prompt transcript w :
  exists tr,
    trace (snd (on_process env prompt transcript w)) = trace w ++ tr /\
    In (calls tr) [[]; [CallSdk]] /\
    warnings tr =
      if PyStr.all_space prompt then ["Please enter a prompt"]
      else if PyStr.all_space transcript then ["Please enter a transcript"]
      else [].
Proof.
  unfold on_process. rewrite !truthy_strip, !negb_involutive.
  destruct (PyStr.all_space prompt).
  { exists [StWarning "Please enter a prompt"]. simpl. auto. }
  destruct (PyStr.all_space transcript).
  { exists [StWarning "Please enter a transcript"]. simpl. auto. }
  unfold process_text_with_gemini, st_download_button. unfold_M.
  destruct (genai_client_error env (GEMINI_API_KEY env)); simpl.
  { rewrite <- !app_assoc; eexists; (split; [reflexivity|]); simpl; auto. }
  destruct (generate_content env) as [[t|]|e]; simpl.
  - destruct (PyStr.truthy t); simpl.
    + destruct (download_button_error env (JStr t)); simpl;
        rewrite <- !app_assoc; eexists; (split; [reflexivity|]); simpl; auto.
    + rewrite <- !app_assoc; eexists; (split; [reflexivity|]); simpl; auto.
  - rewrite <- !app_assoc; eexists; (split; [reflexivity|]); simpl; auto.
  - rewrite <- !app_assoc; eexists; (split; [reflexivity|]); simpl; auto.
Qed.

Lemma on_process_fs env prompt transcript w :
  fs (snd (on_process env prompt transcript w)) = fs w.
Proof.
  unfold on_process.
  destruct (negb (PyStr.truthy (PyStr.strip prompt))); [reflexivity|].
  destruct (negb (PyStr.truthy (PyStr.strip transcript))); [reflexivity|].
  unfold process_text_with_gemini, st_download_button. unfold_M.
  destruct (genai_client_error env (GEMINI_API_KEY env)); simpl; [reflexivity|].
  destruct (generate_content env) as [[t|]|e]; simpl; try reflexivity.
  destruct (PyStr.truthy t); simpl; [|reflexivity].
  destruct (download_button_error env (JStr t)); reflexivity.
Qed.

(** No retry and no call out of turn: in every run of the script, whatever
    the user entered and whatever the outside answers, the remote calls
    are an initial part of "GET, upload, generate" for a URL, of "upload,
    generate" for an uploaded file, and at most the single SDK call in the
    text-processing mode. *)
Theorem run_main_calls env ui files :
  In (calls (trace (snd (run_main env ui files))))
     match ui with
     | AudioTranscription _ (UploadAudioFile _) _ =>
         [[]; [CallUpload]; [CallUpload; CallGenerate]]
     | AudioTranscription _ (AudioURLLink _) _ =>
         [[]; [CallGet]; [CallGet; CallUpload];
          [CallGet; CallUpload; CallGenerate]]
     | PromptTranscriptProcessing _ _ _ => [[]; [CallSdk]]
     end.
Proof.
  unfold run_main.
  destruct ui as [audio_prompt [[f|]|audio_url] pressed|prompt transcript pressed];
    cbn [main].
  - destruct pressed; [|simpl; auto].
    destruct (on_generate_transcript_calls env audio_prompt (inl f) (name f)
                (World files [])) as (tr & -> & Hc & _). exact Hc.
  - simpl; auto.
  - destruct (PyStr.truthy audio_url); [|simpl; auto].
    destruct pressed; [|simpl; auto].
    destruct (on_generate_transcript_calls env audio_prompt (inr audio_url)
                (display_name_of_url audio_url) (World files []))
      as (tr & -> & Hc & _). exact Hc.
  - destruct pressed; [|simpl; auto].
    destruct (on_process_calls env prompt transcript (World files []))
      as (tr & -> & Hc & _). exact Hc.
Qed.

(** A warning is shown exactly when the action button is pressed on a blank
    input, and then it is the only one: no other path of the script, and no
    answer of the outside, produces a warning. *)
Theorem run_main_warnings env ui files :
  warnings (trace (snd (run_main env ui files))) =
    if button_pressed ui
    then match blank_warning ui with Some msg => [msg] | None => [] end
    else [].
Proof.
  unfold run_main.
  destruct ui as [audio_prompt [[f|]|audio_url] pressed|prompt transcript pressed];
    cbn [main button_pressed blank_warning transcription_source].
  - destruct pressed; [|reflexivity].
    destruct (on_generate_transcript_calls env audio_prompt (inl f) (name f)
                (World files [])) as (tr & -> & _ & Hw).
    cbn [trace app]. rewrite Hw. simpl.
    destruct (PyStr.all_space audio_prompt); reflexivity.
  - reflexivity.
  - destruct (PyStr.truthy audio_url); [|reflexivity].
    destruct pressed; [|reflexivity].
    destruct (on_generate_transcript_calls env audio_prompt (inr audio_url)
                (display_name_of_url audio_url) (World files []))
      as (tr & -> & _ & Hw).
    cbn [trace app]. rewrite Hw. simpl.
    destruct (PyStr.all_space audio_prompt); reflexivity.
  - destruct pressed; [|reflexivity].
    destruct (on_process_calls env prompt transcript (World files []))
      as (tr & -> & _ & Hw).
    cbn [trace app]. rewrite Hw.
    destruct (PyStr.all_space prompt); [reflexivity|].
    destruct (PyStr.all_space transcript); reflexivity.
Qed.

(** ** The extension of an uploaded file *)

Section Splitext.
Import PyStr.

Lemma rfind_from_absent (c : ascii) (s : string) (i acc : Z) :
  contains_char c s = false -> rfind_from c s i acc = acc.
Proof.
  revert i acc; induction s as [|a s IH]; intros i acc; simpl; [reflexivity|].
  intros [Ha Hs]%orb_false_iff. rewrite Ha. now apply IH.
Qed.

Lemma rfind_from_last (c : ascii) (pre e : string) (i acc : Z) :
  contains_char c e = false ->
  rfind_from c (pre +:+ String c e) i acc = i + Z.of_nat (String.length pre).
Proof.
  intros He. rewrite rfind_from_app. simpl.
  rewrite Ascii.eqb_refl. now apply rfind_from_absent.
Qed.

Lemma contains_char_decomp (c : ascii) (s : string) :
  contains_char c s = true ->
  exists pre e, s = pre +:+ String c e /\ contains_char c e = false.
Proof.
  induction s as [|a s IH]; simpl; [discriminate|].
  destruct (contains_char c s) eqn:Hs.
  - intros _. destruct (IH eq_refl) as (pre & e & -> & He).
    exists (String a pre), e. auto.
  - rewrite orb_false_r. intros ->%Ascii.eqb_eq.
    exists EmptyString, s. auto.
Qed.

Lemma rfind_from_ge_acc (c : ascii) (s : string) (i acc : Z) :
  acc <= i -> acc <= rfind_from c s i acc.
Proof.
  revert i acc; induction s as [|a s IH]; intros i acc Hacc; simpl; [lia|].
  destruct (Ascii.eqb a c).
  - etransitivity; [|apply IH]; lia.
  - apply IH. lia.
Qed.

Lemma rfind_from_ge_start (c : ascii) (s : string) (i acc : Z) :
  contains_char c s = true -> i <= rfind_from c s i acc.
Proof.
  revert i acc; induction s as [|a s IH]; intros i acc; simpl; [discriminate|].
  destruct (contains_char c s) eqn:Hs.
  - intros _. etransitivity; [|apply IH; reflexivity]. lia.
  - rewrite orb_false_r. intros ->. rewrite rfind_from_absent by exact Hs. lia.
Qed.

Lemma rfind_from_lt_end (c : ascii) (s : string) (i acc : Z) :
  acc < i -> rfind_from c s i acc < i + Z.of_nat (String.length s).
Proof.
  revert i acc; induction s as [|a s IH]; intros i acc Hacc; simpl String.length;
    cbn [rfind_from]; [lia|].
  destruct (Ascii.eqb a c).
  - specialize (IH (i + 1) i). lia.
  - specialize (IH (i + 1) acc). lia.
Qed.

Lemma substring_full (t : string) : substring 0 (String.length t) t = t.
Proof. induction t as [|a t IH]; simpl; [reflexivity|now f_equal]. Qed.

Lemma get_app_at (pre t : string) (a : ascii) :
  String.get (String.length pre) (pre +:+ String a t) = Some a.
Proof. induction pre as [|b pre IH]; simpl; auto. Qed.

Lemma contains_char_app (c : ascii) (s t : string) :
  contains_char c (s +:+ t) = contains_char c s || contains_char c t.
Proof.
  induction s as [|a s IH]; simpl; [reflexivity|].
  now rewrite IH, orb_assoc.
Qed.

Lemma append_cons (a : ascii) (s t : string) :
  String a s +:+ t = String a (s +:+ t).
Proof. reflexivity. Qed.

Lemma append_assoc (s t u : string) : (s +:+ t) +:+ u = s +:+ (t +:+ u).
Proof.
  induction s as [|a s IH]; [reflexivity|].
  now rewrite !append_cons, IH.
Qed.

Lemma append_empty (s : string) : s +:+ "" = s.
Proof.
  induction s as [|a s IH]; [reflexivity|].
  now rewrite append_cons, IH.
Qed.

Lemma slice_from_app (pre t : string) :
  slice_from (pre +:+ t) (Z.of_nat (String.length pre)) = t.
Proof.
  unfold slice_from. rewrite Nat2Z.id, length_app_string, substring_app_tail.
  replace (String.length pre + String.length t - String.length pre)%nat
    with (String.length t) by lia.
  apply substring_full.
Qed.

(** The extension [os.path.splitext] gives is empty, or a dot followed by
    characters that are neither dots nor slashes. *)
Lemma splitext_ext_shape (p : string) :
  snd (OsPath.splitext p) = "" \/
  exists e, snd (OsPath.splitext p) = String "."%char e /\
            contains_char "."%char e = false /\
            contains_char "/"%char e = false.
Proof.
  unfold OsPath.splitext.
  destruct (_ && _) eqn:Hcond; [right|now left].
  apply andb_true_iff in Hcond as [Hlt%Z.ltb_lt _]. cbn [snd].
  destruct (contains_char "."%char p) eqn:Hdot.
  2:{ unfold rfind in Hlt at 2. rewrite rfind_from_absent in Hlt by exact Hdot.
      pose proof (rfind_from_ge_acc "/"%char p 0 (-1)). unfold rfind in Hlt. lia. }
  destruct (contains_char_decomp _ _ Hdot) as (pre & e & -> & He).
  unfold rfind in *. rewrite rfind_from_last in * by exact He.
  rewrite Z.add_0_l, slice_from_app.
  exists e. repeat split; [exact He|].
  destruct (contains_char "/"%char e) eqn:Hslash; [exfalso|reflexivity].
  rewrite rfind_from_app in Hlt. simpl in Hlt.
  pose proof (rfind_from_ge_start "/"%char e
                (0 + Z.of_nat (String.length pre) + 1)
                (rfind_from "/"%char pre 0 (-1)) Hslash).
  lia.
Qed.

(** Appending such an extension to a plain candidate name gives a path
    with that extension. *)
Lemma splitext_plain_candidate (cand ext : string) :
  plain_candidate cand ->
  (ext = "" \/
   exists e, ext = String "."%char e /\
             contains_char "."%char e = false /\
             contains_char "/"%char e = false) ->
  snd (OsPath.splitext (cand +:+ ext)) = ext.
Proof.
  intros (dir & base & -> & Hbase & Hnodot & Hnoslash) [-> | (e & -> & He1 & He2)].
  - rewrite append_empty. unfold OsPath.splitext, rfind.
    rewrite rfind_from_last by exact Hnoslash.
    rewrite rfind_from_app. simpl rfind_from at 1.
    rewrite rfind_from_absent by exact Hnodot.
    pose proof (rfind_from_lt_end "."%char dir 0 (-1)).
    destruct (_ <? _) eqn:Hlt; [apply Z.ltb_lt in Hlt; lia|reflexivity].
  - destruct base as [|b base]; [discriminate|].
    simpl in Hnodot. apply orb_false_iff in Hnodot as [Hb Hnodot].
    set (p := (dir +:+ String "/"%char (String b base)) +:+ String "."%char e).
    assert (Hp1 : p = dir +:+ String "/"%char (String b base +:+ String "."%char e)).
    { subst p. now rewrite append_assoc, append_cons. }
    assert (Hp3 : p = (dir +:+ "/") +:+ String b (base +:+ String "."%char e)).
    { rewrite Hp1, append_assoc, !append_cons. reflexivity. }
    assert (Hsep : rfind "/"%char p = Z.of_nat (String.length dir)).
    { rewrite Hp1. unfold rfind. rewrite rfind_from_last; [lia|].
      rewrite contains_char_app, Hnoslash. simpl. exact He2. }
    assert (Hdot : rfind "."%char p =
                   Z.of_nat (String.length (dir +:+ String "/"%char (String b base)))).
    { subst p. unfold rfind. rewrite rfind_from_last by exact He1. lia. }
    assert (Hslice : slice_from p (rfind "."%char p) = String "."%char e).
    { rewrite Hdot. subst p. apply slice_from_app. }
    assert (Hget : String.get (Z.to_nat (Z.of_nat (String.length dir) + 1)) p = Some b).
    { replace (Z.to_nat (Z.of_nat (String.length dir) + 1))
        with (String.length (dir +:+ "/")) by (rewrite length_app_string; simpl; lia).
      rewrite Hp3. apply get_app_at. }
    unfold OsPath.splitext. rewrite Hslice, Hsep, Hdot, length_app_string.
    cbn [String.length].
    replace (Z.of_nat (String.length dir + S (S (String.length base)))
             - (Z.of_nat (String.length dir) + 1))
      with (Z.of_nat (S (String.length base))) by lia.
    rewrite Nat2Z.id. cbn [OsPath.has_non_dot]. rewrite Hget, Hb.
    destruct (_ <? _) eqn:Hlt; [reflexivity|apply Z.ltb_ge in Hlt; lia].
Qed.

End Splitext.

(** The temporary copy of an uploaded file gets the extension of the
    uploaded name, so that the mime type of the upload is the one the
    table gives for the name under which the user uploaded the file. *)
Theorem uploaded_audio_mime_follows_name env f w p w1 :
  (forall n, plain_candidate (candidate_names env n)) ->
  save_uploaded_file env f w = (Ok (Some p), w1) ->
  mime_type_for p = mime_type_for (name f).
Proof.
  intros Hplain.
  unfold save_uploaded_file, NamedTemporaryFile, file_write. unfold_M.
  destruct (os_open_error env); [discriminate|].
  destruct (mkstemp_inner _ _ _ _ _) as [tmp_file|] eqn:Hmk; [|discriminate].
  apply mkstemp_inner_fresh in Hmk as [_ [n ->]]. simpl.
  destruct (write_error env 0); [discriminate|].
  intros [= <- _].
  unfold mime_type_for, file_extension.
  now rewrite (splitext_plain_candidate _ _ (Hplain n) (splitext_ext_shape (name f))).
Qed.

Lemma uploaded_audio_mime_follows_name_witness :
  mime_type_for "/tmp/tmpq7w2k_x1.mp3" = mime_type_for (name Sample.clip).
Proof.
  refine (uploaded_audio_mime_follows_name Sample.fixed_name_env Sample.clip
            (World ∅ []) "/tmp/tmpq7w2k_x1.mp3"
            (World {["/tmp/tmpq7w2k_x1.mp3" := [x49; x44; x33]]} []) _ _).
  - intros n. exists "/tmp", "tmpq7w2k_x1". repeat split.
  - vm_compute. reflexivity.
Defined.

(** ** Files that were there before the run *)

Lemma download_keeps_files env audio_url w path content :
  fs w !! path = Some content ->
  fs (snd (download_audio_from_url env audio_url w)) !! path = Some content.
Proof.
  intros Hpath.
  unfold download_audio_from_url.
  unfold try_except at 1. unfold bind at 1. unfold emit at 1. cbv beta iota.
  unfold bind at 1. unfold lift at 1.
  destruct (requests_get env) as [response|e]; [|exact Hpath].
  unfold bind at 1.
  destruct (raise_for_status response) as [e|]; [exact Hpath|].
  unfold ret at 1. unfold bind at 1. unfold NamedTemporaryFile at 1.
  destruct (os_open_error env) as [e|]; [exact Hpath|].
  cbn [fs trace].
  destruct (mkstemp_inner _ _ _ _ _) as [tmp_file|] eqn:Hmk; [|exact Hpath].
  apply mkstemp_inner_fresh in Hmk as [Hfresh _].
  assert (Hne : tmp_file <> path) by congruence.
  set (w1 := World (<[tmp_file := []]> (fs w)) (trace w ++ [RequestsGet audio_url true])).
  unfold bind at 1.
  destruct (write_chunks_spec env tmp_file (iter_content response) 0 w1 [])
    as [[_ Heq]|(e & n & w2 & _ & _ & Heq & _ & _ & Hother)];
    [subst w1; apply lookup_insert_eq | |]; rewrite Heq.
  - unfold bind at 1.
    destruct (iter_error response); unfold raise, ret, st_error, bind, emit;
      subst w1; cbn [snd fs]; now rewrite !lookup_insert_ne.
  - unfold st_error, bind, emit, ret; cbn [snd fs].
    rewrite Hother by congruence. subst w1; cbn [fs]. now rewrite lookup_insert_ne.
Qed.

Lemma stage_audio_keeps_files env source w path content :
  fs w !! path = Some content ->
  fs (snd (stage_audio env source w)) !! path = Some content.
Proof.
  intros Hpath. destruct source as [f|audio_url]; cbn [stage_audio].
  - unfold save_uploaded_file, NamedTemporaryFile, file_write. unfold_M.
    destruct (os_open_error env); [exact Hpath|].
    destruct (mkstemp_inner _ _ _ _ _) as [tmp_file|] eqn:Hmk; [|exact Hpath].
    apply mkstemp_inner_fresh in Hmk as [Hfresh _].
    assert (Hne : tmp_file <> path) by congruence. simpl.
    destruct (write_error env 0); simpl; now rewrite !lookup_insert_ne.
  - now apply download_keeps_files.
Qed.

Lemma transcribe_staged_fs env url_source display_name audio_prompt tmp_path w :
  fs (snd (transcribe_staged env url_source display_name audio_prompt tmp_path w))
    = fs w.
Proof.
  unfold transcribe_staged.
  destruct tmp_path as [p|]; [|reflexivity].
  destruct (url_source && negb (PyStr.truthy p)); [reflexivity|].
  unfold bind at 1.
  destruct (generate_transcript_from_audio_total env p display_name audio_prompt w)
    as (r & tr & ->).
  destruct (PyVal.truthy r).
  - unfold st_download_button, st_success, bind, emit; cbn [fs trace].
    destruct (download_button_error env r); reflexivity.
  - reflexivity.
Qed.

Lemma on_generate_transcript_keeps_files env audio_prompt source display_name w
    path content :
  fs w !! path = Some content ->
  fs (snd (on_generate_transcript env audio_prompt source display_name w)) !! path
    = Some content.
Proof.
  intros Hpath. unfold on_generate_transcript.
  destruct (negb (PyStr.truthy (PyStr.strip audio_prompt))); [exact Hpath|].
  unfold try_finally.
  pose proof (stage_audio_keeps_files env source w path content Hpath) as Hstage.
  destruct (stage_audio env source w) as [[x|e] w1] eqn:Hst; cbn [snd] in Hstage.
  2:{ exact Hstage. }
  pose proof (transcribe_staged_fs env (from_url source) display_name audio_prompt x w1)
    as Hbody.
  destruct (transcribe_staged env (from_url source) display_name audio_prompt x w1)
    as [r w2]; cbn [snd] in Hbody.
  destruct x as [p|].
  - destruct (stage_audio_some _ _ _ _ _ Hst) as (c & Hfresh & _).
    assert (Hne : p <> path) by congruence.
    unfold cleanup, os_path_exists, os_unlink. unfold_M.
    destruct (fs w2 !! p) eqn:Hp; simpl; rewrite ?Hp; simpl;
      rewrite ?lookup_delete_ne by exact Hne; congruence.
  - simpl. congruence.
Qed.

(** No run of the script removes or changes a file that was on local
    storage before it: whatever the user entered and whatever the outside
    answers, such a file is still there with the same content. *)
Theorem existing_files_are_kept env ui files path content :
  files !! path = Some content ->
  fs (snd (run_main env ui files)) !! path = Some content.
Proof.
  intros Hpath. unfold run_main.
  destruct ui as [audio_prompt [[f|]|audio_url] pressed|prompt transcript pressed];
    cbn [main].
  - destruct pressed; [|exact Hpath].
    now apply on_generate_transcript_keeps_files.
  - exact Hpath.
  - destruct (PyStr.truthy audio_url); [|exact Hpath].
    destruct pressed; [|exact Hpath].
    now apply on_generate_transcript_keeps_files.
  - destruct pressed; [|exact Hpath].
    now rewrite on_process_fs.
Qed.

Lemma existing_files_are_kept_witness :
  fs (snd (run_main Sample.broken_stream_env
             (AudioTranscription "transcribe verbatim"
                (AudioURLLink Sample.audio_url) true)
             {["/tmp/tmpak3x9_q.wav" := [x01; x02]]}))
    !! "/tmp/tmpak3x9_q.wav" = Some [x01; x02].
Proof.
  apply (existing_files_are_kept Sample.broken_stream_env
           (AudioTranscription "transcribe verbatim"
              (AudioURLLink Sample.audio_url) true)
           {["/tmp/tmpak3x9_q.wav" := [x01; x02]]}
           "/tmp/tmpak3x9_q.wav" [x01; x02]).
  vm_compute. reflexivity.
Defined.

(** ** Files left behind *)

Lemma download_audio_from_url_fs env audio_url w :
  exists r w',
    download_audio_from_url env audio_url w = (r, w') /\
    (fs w' = fs w \/ exists p c, fs w !! p = None /\ fs w' = <[p := c]> (fs w)).
Proof.
  unfold download_audio_from_url.
  unfold try_except at 1. unfold bind at 1. unfold emit at 1. cbv beta iota.
  unfold bind at 1. unfold lift at 1.
  destruct (requests_get env) as [response|e];
    [|eexists _, _; split; [reflexivity|now left]].
  unfold bind at 1.
  destruct (raise_for_status response) as [e|];
    [eexists _, _; split; [reflexivity|now left]|].
  unfold ret at 1. unfold bind at 1. unfold NamedTemporaryFile at 1.
  destruct (os_open_error env) as [e|];
    [eexists _, _; split; [reflexivity|now left]|].
  cbn [fs trace].
  destruct (mkstemp_inner _ _ _ _ _) as [tmp_file|] eqn:Hmk;
    [|eexists _, _; split; [reflexivity|now left]].
  apply mkstemp_inner_fresh in Hmk as [Hfresh _].
  set (w1 := World (<[tmp_file := []]> (fs w)) (trace w ++ [RequestsGet audio_url true])).
  unfold bind at 1.
  destruct (write_chunks_spec env tmp_file (iter_content response) 0 w1 [])
    as [[_ Heq]|(e & n & w2 & _ & _ & Heq & _ & [c Hc] & Hother)];
    [subst w1; apply lookup_insert_eq | |]; rewrite Heq.
  - unfold bind at 1.
    destruct (iter_error response); unfold raise, ret, st_error, bind, emit;
      subst w1; cbn [fs trace]; eexists _, _; (split; [reflexivity|]);
      right; exists tmp_file, (concat (iter_content response));
      (split; [exact Hfresh|]); cbn [fs]; now rewrite insert_insert_eq.
  - unfold st_error, bind, emit, ret. eexists _, _. split; [reflexivity|].
    right. exists tmp_file, c. split; [exact Hfresh|]. cbn [fs].
    apply map_eq. intros q. destruct (decide (q = tmp_file)) as [->|Hq].
    + now rewrite Hc, lookup_insert_eq.
    + rewrite Hother by exact Hq. subst w1; cbn [fs].
      now rewrite !lookup_insert_ne by congruence.
Qed.

Lemma stage_audio_fs env source w :
  fs (snd (stage_audio env source w)) = fs w \/
  exists p c,
    fs w !! p = None /\ fs (snd (stage_audio env source w)) = <[p := c]> (fs w).
Proof.
  destruct source as [f|audio_url]; cbn [stage_audio].
  2:{ destruct (download_audio_from_url_fs env audio_url w) as (r & w' & -> & H).
      exact H. }
  unfold save_uploaded_file, NamedTemporaryFile, file_write. unfold_M.
  destruct (os_open_error env); [now left|].
  destruct (mkstemp_inner _ _ _ _ _) as [tmp_file|] eqn:Hmk; [|now left].
  apply mkstemp_inner_fresh in Hmk as [Hfresh _]. simpl.
  right. exists tmp_file.
  destruct (write_error env 0); simpl; eexists; (split; [exact Hfresh|]);
    rewrite ?lookup_insert_eq, ?insert_insert_eq; reflexivity.
Qed.

Lemma on_generate_transcript_fs env audio_prompt source display_name w :
  fs (snd (on_generate_transcript env audio_prompt source display_name w)) = fs w \/
  exists p c,
    fs w !! p = None /\
    fs (snd (on_generate_transcript env audio_prompt source display_name w))
      = <[p := c]> (fs w).
Proof.
  destruct (PyStr.truthy (PyStr.strip audio_prompt)) eqn:Hprompt.
  2:{ left. unfold on_generate_transcript. now rewrite Hprompt. }
  destruct (stage_audio env source w) as [[[p|]|e] w1] eqn:Hst.
  - left.
    destruct (on_generate_transcript_cleans_up env audio_prompt source display_name
                w p w1 Hprompt Hst) as (r & tr & ->). reflexivity.
  - pose proof (stage_audio_fs env source w) as Hfs. rewrite Hst in Hfs.
    unfold on_generate_transcript. rewrite Hprompt; cbn [negb].
    unfold try_finally. rewrite Hst. exact Hfs.
  - pose proof (stage_audio_fs env source w) as Hfs. rewrite Hst in Hfs.
    unfold on_generate_transcript. rewrite Hprompt; cbn [negb].
    unfold try_finally. rewrite Hst. exact Hfs.
Qed.

(** A run leaves at most one file behind: when it ends, local storage is
    what it was before, or what it was before with one new file. *)
Theorem at_most_one_file_left env ui files :
  fs (snd (run_main env ui files)) = files \/
  exists p c,
    files !! p = None /\ fs (snd (run_main env ui files)) = <[p := c]> files.
Proof.
  unfold run_main.
  destruct ui as [audio_prompt [[f|]|audio_url] pressed|prompt transcript pressed];
    cbn [main].
  - destruct pressed; [|now left].
    apply (on_generate_transcript_fs env audio_prompt (inl f) (name f) (World files [])).
  - now left.
  - destruct (PyStr.truthy audio_url); [|now left].
    destruct pressed; [|now left].
    apply (on_generate_transcript_fs env audio_prompt (inr audio_url)
             (display_name_of_url audio_url) (World files [])).
  - left. destruct pressed; [|reflexivity].
    now rewrite on_process_fs.
Qed.

(** ** Paths that end in an extension of the table *)

Section Extensions.
Import PyStr.

Lemma has_non_dot_basename (base pre rest : string) :
  OsPath.has_non_dot (pre +:+ base +:+ rest) (Z.of_nat (String.length pre))
    (String.length base) = negb (only_dots base).
Proof.
  revert pre; induction base as [|b base IH]; intros pre; [reflexivity|].
  cbn [String.length OsPath.has_non_dot only_dots].
  rewrite Nat2Z.id, append_cons, get_app_at.
  destruct (Ascii.eqb b "."%char) eqn:Hb; [|reflexivity].
  cbn [andb]. rewrite <- (IH (pre +:+ String b EmptyString)).
  rewrite length_app_string. cbn [String.length].
  replace (Z.of_nat (String.length pre + 1)) with (Z.of_nat (String.length pre) + 1)
    by lia.
  now rewrite append_assoc, append_cons.
Qed.

Lemma basename_no_slash (s : string) :
  contains_char "/"%char s = false -> basename s = s.
Proof.
  destruct s as [|a s]; [reflexivity|]. simpl.
  intros [Ha Hs]%orb_false_iff. now rewrite Hs, Ha.
Qed.

Lemma basename_after_slash (dir base : string) :
  contains_char "/"%char base = false ->
  basename (dir +:+ String "/"%char base) = base.
Proof.
  intros Hbase. induction dir as [|a dir IH].
  - simpl. now rewrite Hbase.
  - rewrite append_cons. cbn [basename].
    rewrite contains_char_app. simpl contains_char at 2.
    now rewrite orb_true_r.
Qed.

(** The loop of [splitext] over the file name of a stem finds a character
    other than a dot exactly when the stem names a file. *)
Lemma has_non_dot_stem (stem rest : string) :
  OsPath.has_non_dot (stem +:+ rest) (rfind "/"%char stem + 1)
    (Z.to_nat (Z.of_nat (String.length stem) - (rfind "/"%char stem + 1)))
  = has_name stem.
Proof.
  unfold has_name, rfind.
  destruct (contains_char "/"%char stem) eqn:Hslash.
  - destruct (contains_char_decomp _ _ Hslash) as (dir & base & -> & Hbase).
    rewrite basename_after_slash, rfind_from_last by exact Hbase.
    rewrite length_app_string. cbn [String.length].
    replace (Z.of_nat (String.length dir + S (String.length base))
             - (0 + Z.of_nat (String.length dir) + 1))
      with (Z.of_nat (String.length base)) by lia.
    rewrite Nat2Z.id.
    replace (0 + Z.of_nat (String.length dir) + 1)
      with (Z.of_nat (String.length (dir +:+ "/")))
      by (rewrite length_app_string; simpl; lia).
    replace ((dir +:+ String "/"%char base) +:+ rest)
      with ((dir +:+ "/") +:+ base +:+ rest)
      by (rewrite !append_assoc, !append_cons; reflexivity).
    apply has_non_dot_basename.
  - rewrite basename_no_slash, rfind_from_absent by exact Hslash.
    replace (Z.of_nat (String.length stem) - (-1 + 1))
      with (Z.of_nat (String.length stem)) by lia.
    rewrite Nat2Z.id.
    apply (has_non_dot_basename stem "" rest).
Qed.

(** A dot and characters that are neither dots nor slashes, put after a
    stem that names a file, are the extension of the path. *)
Lemma splitext_named (stem e : string) :
  has_name stem = true ->
  contains_char "."%char e = false ->
  contains_char "/"%char e = false ->
  snd (OsPath.splitext (stem +:+ String "."%char e)) = String "."%char e.
Proof.
  intros Hname He1 He2.
  assert (Hdot : rfind "."%char (stem +:+ String "."%char e)
                 = Z.of_nat (String.length stem)).
  { unfold rfind. rewrite rfind_from_last by exact He1. lia. }
  assert (Hsep : rfind "/"%char (stem +:+ String "."%char e) = rfind "/"%char stem).
  { unfold rfind. rewrite rfind_from_app.
    apply rfind_from_absent. simpl. exact He2. }
  unfold OsPath.splitext.
  rewrite Hsep, Hdot, has_non_dot_stem, Hname, slice_from_app.
  pose proof (rfind_from_lt_end "/"%char stem 0 (-1)). unfold rfind.
  destruct (_ <? _) eqn:Hlt; [reflexivity|apply Z.ltb_ge in Hlt; lia].
Qed.

Lemma mime_type_for_named (stem e : string) :
  has_name stem = true ->
  contains_char "."%char e = false ->
  contains_char "/"%char e = false ->
  mime_type_for (stem +:+ String "."%char e) =
    default "audio/wav" (table_lookup (lower (String "."%char e)) extension_table).
Proof.
  intros Hname He1 He2. unfold mime_type_for, file_extension.
  now rewrite splitext_named, mime_type_map_table.
Qed.

Lemma lower_char_upper (a : ascii) :
  lower_char a = a -> lower_char (ascii_upper a) = a.
Proof. destruct a as [[] [] [] [] [] [] [] []]; vm_compute; congruence. Qed.

Lemma ascii_upper_dot (a : ascii) :
  Ascii.eqb (ascii_upper a) "."%char = Ascii.eqb a "."%char.
Proof. destruct a as [[] [] [] [] [] [] [] []]; vm_compute; reflexivity. Qed.

Lemma ascii_upper_slash (a : ascii) :
  Ascii.eqb (ascii_upper a) "/"%char = Ascii.eqb a "/"%char.
Proof. destruct a as [[] [] [] [] [] [] [] []]; vm_compute; reflexivity. Qed.

Lemma case_variant_refl (k : string) : case_variant_of k k = true.
Proof.
  induction k as [|a k IH]; [reflexivity|].
  cbn [case_variant_of]. now rewrite Ascii.eqb_refl, IH.
Qed.

Lemma case_variant_lower (k x : string) :
  case_variant_of k x = true -> lower k = k -> lower x = k.
Proof.
  revert x; induction k as [|a k IH]; intros [|b x]; try discriminate;
    [reflexivity|].
  cbn [case_variant_of lower].
  intros [Hb Hx]%andb_true_iff [= Ha Hk].
  rewrite (IH x Hx Hk). f_equal.
  apply orb_true_iff in Hb as [->%Ascii.eqb_eq | ->%Ascii.eqb_eq];
    [exact Ha|now apply lower_char_upper].
Qed.

Lemma case_variant_contains (c : ascii) (k x : string) :
  (forall a, Ascii.eqb (ascii_upper a) c = Ascii.eqb a c) ->
  case_variant_of k x = true ->
  contains_char c x = contains_char c k.
Proof.
  intros Hc. revert x; induction k as [|a k IH]; intros [|b x]; try discriminate;
    [reflexivity|].
  cbn [case_variant_of contains_char].
  intros [Hb Hx]%andb_true_iff. rewrite (IH x Hx). f_equal.
  apply orb_true_iff in Hb as [->%Ascii.eqb_eq | ->%Ascii.eqb_eq];
    [reflexivity|apply Hc].
Qed.

(** The keys of the table: a dot and characters that are neither dots nor
    slashes, all in lower case, each key with one entry. *)
Lemma extension_table_keys (k mime : string) :
  In (k, mime) extension_table ->
  exists e, k = String "."%char e /\
            contains_char "."%char e = false /\
            contains_char "/"%char e = false /\
            lower k = k /\
            table_lookup k extension_table = Some mime.
Proof.
  simpl. intros [H|[H|[H|[H|[H|[]]]]]]; injection H as <- <-;
    eexists; repeat split.
Qed.

(** A path that names a file and ends in a key of the table, in any mix of
    small and capital letters, gets the entry of that key. *)
Lemma mime_type_for_variant (stem k mime x : string) :
  has_name stem = true ->
  In (k, mime) extension_table ->
  case_variant_of k x = true ->
  mime_type_for (stem +:+ x) = mime.
Proof.
  intros Hname Hin Hvar.
  destruct (extension_table_keys k mime Hin) as (e & -> & He1 & He2 & Hlow & Hlook).
  pose proof (case_variant_lower _ _ Hvar Hlow) as Hx.
  destruct x as [|b x]; [discriminate|].
  cbn [case_variant_of] in Hvar. apply andb_true_iff in Hvar as [Hb Htail].
  assert (b = "."%char) as ->.
  { apply orb_true_iff in Hb as [Hb|Hb]; now apply Ascii.eqb_eq in Hb. }
  pose proof (case_variant_contains "."%char _ _ ascii_upper_dot Htail) as Hd.
  pose proof (case_variant_contains "/"%char _ _ ascii_upper_slash Htail) as Hs.
  rewrite mime_type_for_named by congruence.
  now rewrite Hx, Hlook.
Qed.

End Extensions.

(** Whenever the audio file is there, the upload makes its request, and
    the request carries the mime type of the path. *)
Lemma upload_posts_mime_type env audio_path display_name w content :
  fs w !! audio_path = Some content ->
  exists r tail,
    upload_audio_to_gemini env audio_path display_name w =
      (Ok r,
       World (fs w)
         (trace w ++
          RequestsPostFiles (upload_url env) display_name content
            (mime_type_for audio_path) :: tail)) /\
    (r = (JNull, JNull) \/ exists uri, r = (JStr (mime_type_for audio_path), uri)).
Proof.
  intros Hfile. unfold upload_audio_to_gemini, open_rb. unfold_M.
  rewrite Hfile; simpl.
  destruct (upload_post env) as [response|e]; simpl.
  2:{ eexists _, [_]. rewrite <- app_assoc. split; [reflexivity|]. now left. }
  destruct (status_code response =? 200); simpl.
  2:{ eexists _, [_]. rewrite <- app_assoc. split; [reflexivity|]. now left. }
  destruct (json_body response) as [response_json|e]; simpl.
  2:{ eexists _, [_]. rewrite <- app_assoc. split; [reflexivity|]. now left. }
  destruct (PyVal.get response_json "file" (JObj [])) as [file|e]; simpl.
  2:{ eexists _, [_]. rewrite <- app_assoc. split; [reflexivity|]. now left. }
  destruct (PyVal.get file "uri" JNull) as [file_uri|e]; simpl.
  2:{ eexists _, [_]. rewrite <- app_assoc. split; [reflexivity|]. now left. }
  destruct (PyVal.truthy file_uri) eqn:Huri; simpl.
  - eexists _, []. split; [reflexivity|]. right. eauto.
  - eexists _, [_]. rewrite <- app_assoc. split; [reflexivity|]. now left.
Qed.

Lemma mime_type_for_no_dot (audio_path : string) :
  contains_char "."%char audio_path = false ->
  mime_type_for audio_path = "audio/wav".
Proof.
  intros Hdot. unfold mime_type_for, file_extension, OsPath.splitext, PyStr.rfind.
  rewrite (rfind_from_absent "."%char) by exact Hdot.
  pose proof (rfind_from_ge_acc "/"%char audio_path 0 (-1)).
  destruct (_ <? _) eqn:Hlt; [apply Z.ltb_lt in Hlt; lia|reflexivity].
Qed.

(** C3. The mime type [upload_audio_to_gemini] chooses follows the fixed
    table.  A path that names a file and ends in [.wav], [.mp3], [.m4a],
    [.ogg] or [.flac] gets [audio/wav], [audio/mpeg], [audio/mp4],
    [audio/ogg], [audio/flac]; a path that ends in an extension whose
    lowered form is not in the table, or that has no dot at all, gets
    [audio/wav]; for every path the mime type is the entry of the table for
    the extension the code computes, [audio/wav] when there is none.
    Whenever the file is there, the upload request carries that mime type,
    and a successful upload returns it. *)
Theorem mime_type_follows_table :
  (forall stem ext mime,
     has_name stem = true -> In (ext, mime) extension_table ->
     mime_type_for (stem +:+ ext) = mime) /\
  (forall stem e,
     has_name stem = true ->
     contains_char "."%char e = false -> contains_char "/"%char e = false ->
     table_lookup (PyStr.lower (String "."%char e)) extension_table = None ->
     mime_type_for (stem +:+ String "."%char e) = "audio/wav") /\
  (forall audio_path,
     contains_char "."%char audio_path = false ->
     mime_type_for audio_path = "audio/wav") /\
  (forall audio_path,
     mime_type_for audio_path =
       default "audio/wav"
         (table_lookup (file_extension audio_path) extension_table)) /\
  (forall env audio_path display_name w content,
     fs w !! audio_path = Some content ->
     exists r tail,
       upload_audio_to_gemini env audio_path display_name w =
         (Ok r,
          World (fs w)
            (trace w ++
             RequestsPostFiles (upload_url env) display_name content
               (mime_type_for audio_path) :: tail)) /\
       (r = (JNull, JNull) \/
        exists uri, r = (JStr (mime_type_for audio_path), uri))).
Proof.
  split; [|split; [|split; [|split]]].
  - intros stem ext mime Hname Hin.
    apply (mime_type_for_variant stem ext mime ext Hname Hin).
    apply case_variant_refl.
  - intros stem e Hname He1 He2 Hnone.
    rewrite mime_type_for_named by assumption. now rewrite Hnone.
  - apply mime_type_for_no_dot.
  - intros audio_path. unfold mime_type_for. now rewrite mime_type_map_table.
  - apply upload_posts_mime_type.
Qed.

(** Five paths with the five extensions, one with an extension the table
    does not have, one without a dot. *)
Lemma mime_type_follows_table_witness :
  mime_type_for ("/tmp/tmpak3x9_q" +:+ ".wav") = "audio/wav" /\
  mime_type_for ("clip" +:+ ".mp3") = "audio/mpeg" /\
  mime_type_for ("memo" +:+ ".m4a") = "audio/mp4" /\
  mime_type_for ("/srv/a.b/talk" +:+ ".ogg") = "audio/ogg" /\
  mime_type_for ("./x" +:+ ".flac") = "audio/flac" /\
  mime_type_for ("notes" +:+ String "."%char "txt") = "audio/wav" /\
  mime_type_for "/tmp/tmpak3x9_q" = "audio/wav".
Proof.
  destruct mime_type_follows_table as (Hknown & Hunknown & Hnodot & _).
  refine (conj _ (conj _ (conj _ (conj _ (conj _ (conj _ _)))))).
  - apply Hknown; [reflexivity|simpl; auto].
  - apply Hknown; [reflexivity|simpl; auto].
  - apply Hknown; [reflexivity|simpl; auto 6].
  - apply Hknown; [reflexivity|simpl; auto 6].
  - apply Hknown; [reflexivity|simpl; auto 8].
  - apply Hunknown; reflexivity.
  - apply Hnodot; reflexivity.
Defined.

(** C9. The lookup does not look at the case of the extension: a path that
    names a file and ends in a key of the table with any of its letters
    written as capitals ([.WAV], [.Mp3], ...) gets the mime type of the
    lower-case key; and, for every path, the path and its lower-case form
    have the same extension key and the same mime type. *)
Theorem mime_type_case_insensitive :
  (forall stem k mime x,
     has_name stem = true -> In (k, mime) extension_table ->
     case_variant_of k x = true ->
     mime_type_for (stem +:+ x) = mime) /\
  (forall stem,
     has_name stem = true ->
     mime_type_for (stem +:+ ".WAV") = "audio/wav" /\
     mime_type_for (stem +:+ ".Mp3") = "audio/mpeg") /\
  (forall audio_path,
     file_extension (PyStr.lower audio_path) = file_extension audio_path /\
     mime_type_for (PyStr.lower audio_path) = mime_type_for audio_path).
Proof.
  split; [|split].
  - apply mime_type_for_variant.
  - intros stem Hname. split.
    + apply (mime_type_for_variant stem ".wav" _ _ Hname); [simpl; auto|reflexivity].
    + apply (mime_type_for_variant stem ".mp3" _ _ Hname); [simpl; auto|reflexivity].
  - intros audio_path.
    assert (Hext : file_extension (PyStr.lower audio_path) = file_extension audio_path).
    { unfold file_extension. rewrite splitext_lower; simpl. apply lower_idem. }
    split; [exact Hext|]. unfold mime_type_for. now rewrite Hext.
Qed.

(** Mixed-case endings of two uploads. *)
Lemma mime_type_case_insensitive_witness :
  mime_type_for ("/tmp/talk" +:+ ".Mp3") = "audio/mpeg" /\
  mime_type_for ("/tmp/Talk" +:+ ".FLAC") = "audio/flac" /\
  mime_type_for ("song" +:+ ".WAV") = "audio/wav".
Proof.
  destruct mime_type_case_insensitive as (Hvariant & Hexamples & _).
  refine (conj _ (conj _ _)).
  - apply (Hvariant "/tmp/talk" ".mp3"); [reflexivity|simpl; auto|reflexivity].
  - apply (Hvariant "/tmp/Talk" ".flac"); [reflexivity|simpl; auto 8|reflexivity].
  - apply (Hexamples "song"). reflexivity.
Defined.
